(** * One-time passcode login: request_otp and verify_otp of main.py

    A shallow embedding of the two OTP handlers of [main.py] and of the
    store they read and write, with the properties of the OTP life cycle
    proved about them.

    Modelling choices.
    - A Python [str] is a [string]; a character is a code point in 0..255
      (the Latin-1 range), on which [str.lower] and [str.isspace] are
      tabulated below as CPython computes them.
    - A [datetime] is a [Z], the number of microseconds since the epoch
      (the resolution of Python's [datetime]).  The store keeps dates to
      the millisecond, as BSON dates are: the bound of a [$gte] filter and
      the dates written by a [$set] are truncated by [floor_ms].  A
      document handed to an insert is kept as the handler built it: of its
      dates the handlers read [expires_at], against a bound that is a
      whole number of milliseconds, so that truncating it changes no
      comparison (lemma [floor_ms_le_floor]), and [created_at], to order
      the matches.
    - A collection is the list of its documents in insertion order.  The
      handlers never delete a document, so the position of a document is
      its [_id].
    - [datetime.now] and [random.randint] are inputs of the handlers: each
      reading of the clock and the random draw are arguments. *)

From Stdlib Require Import ZArith NArith Lia Bool Ascii String.
From stdpp Require Import base option list strings.

Local Open Scope Z_scope.

(** ** Python strings *)

Module PyStr.

(** [str.isspace] on one code point below 256: tab, line feed, vertical
    tab, form feed, carriage return, the four separators 0x1c..0x1f, the
    space, NEL (0x85) and the no-break space (0xa0). *)
Definition isspace (c : ascii) : bool :=
  let n := N_of_ascii c in
  ((9 <=? n) && (n <=? 13) || (28 <=? n) && (n <=? 32)
   || (n =? 133) || (n =? 160))%N.

(** [str.lower] on one code point below 256: A..Z and the Latin-1 capitals
    0xc0..0xde (the multiplication sign 0xd7 apart) move up by 32. *)
Definition lower_char (c : ascii) : ascii :=
  let n := N_of_ascii c in
  if ((65 <=? n) && (n <=? 90)
      || (192 <=? n) && (n <=? 222) && negb (n =? 215))%N
  then ascii_of_N (n + 32) else c.

(** [s.lower()] *)
Fixpoint lower (s : string) : string :=
  match s with
  | EmptyString => EmptyString
  | String c s' => String (lower_char c) (lower s')
  end.

(** [s.lstrip()] *)
Fixpoint lstrip (s : string) : string :=
  match s with
  | EmptyString => EmptyString
  | String c s' => if isspace c then lstrip s' else s
  end.

(** [s.rstrip()] *)
Fixpoint rstrip (s : string) : string :=
  match s with
  | EmptyString => EmptyString
  | String c s' =>
      match rstrip s' with
      | EmptyString => if isspace c then EmptyString else String c EmptyString
      | r => String c r
      end
  end.

(** [s.strip()] *)
Definition strip (s : string) : string := rstrip (lstrip s).

(** No whitespace in front. *)
Definition no_lead (s : string) : bool :=
  match s with
  | EmptyString => true
  | String c _ => negb (isspace c)
  end.

(** A string of whitespace only. *)
Fixpoint all_space (s : string) : bool :=
  match s with
  | EmptyString => true
  | String c s' => isspace c && all_space s'
  end.

(** The decimal digit [d] (0..9) as a character. *)
Definition digit_char (d : N) : ascii := ascii_of_N (48 + d).

Definition is_digit (c : ascii) : bool :=
  let n := N_of_ascii c in ((48 <=? n) && (n <=? 57))%N.

(** [str(n)] for a natural number: its decimal digits, most significant
    first.  [fuel] bounds the number of digits. *)
Fixpoint str_fuel (fuel : nat) (n : N) : string :=
  match fuel with
  | O => EmptyString
  | S f =>
      if (n <? 10)%N then String (digit_char n) EmptyString
      else str_fuel f (n / 10)%N +:+ String (digit_char (n mod 10)%N) EmptyString
  end.

Definition str (n : N) : string := str_fuel (S (N.to_nat (N.log2 n))) n.

(** ['0' * k] *)
Fixpoint zeros (k : nat) : string :=
  match k with
  | O => EmptyString
  | S k' => String "0"%char (zeros k')
  end.

(** The format specification [0{width}d] on a natural number: the decimal
    digits, padded on the left with zeros up to [width] characters. *)
Definition format_0d (width : nat) (n : N) : string :=
  let s := str n in
  zeros (width - String.length s) +:+ s.

(** [f"{n:06d}"] *)
Definition format_06d (n : N) : string := format_0d 6 n.

(** [int(s)] on a string of decimal digits. *)
Fixpoint int_acc (acc : N) (s : string) : N :=
  match s with
  | EmptyString => acc
  | String c s' => int_acc (10 * acc + (N_of_ascii c - 48))%N s'
  end.

Definition int (s : string) : N := int_acc 0 s.

Fixpoint all_digits (s : string) : bool :=
  match s with
  | EmptyString => true
  | String c s' => is_digit c && all_digits s'
  end.

End PyStr.

(** ** The store *)

(** A [datetime], in microseconds. *)
Definition datetime := Z.

(** [timedelta(minutes=m)] *)
Definition timedelta_minutes (m : Z) : Z := m * 60 * 1000000.

(** A date as the store encodes it: the microseconds below the
    millisecond are dropped. *)
Definition floor_ms (t : datetime) : datetime := 1000 * (t / 1000).

(** A document of the [otp] collection.  [email], [code], [expires_at]
    and [used] are the keys of [otp_doc] in [request_otp]; [created_at] is
    stamped by [create_document]; [updated_at] is absent until
    [verify_otp] sets it. *)
Record OtpDoc := mkOtp {
  o_email : string;
  o_code : string;
  o_expires_at : datetime;
  o_used : bool;
  o_created_at : datetime;
  o_updated_at : option datetime
}.

(** A document of the [authuser] collection.  [display_name] is [None]
    both when the key holds [None] and when it is absent; [last_login] and
    [created_at] are [None] when the key is absent. *)
Record UserDoc := mkUser {
  u_email : string;
  u_display_name : option string;
  u_is_verified : bool;
  u_last_login : option datetime;
  u_created_at : option datetime;
  u_updated_at : datetime
}.

(** The database handle [db]: its two collections, each in insertion
    order. *)
Record Database := mkDb {
  otp : list OtpDoc;
  authuser : list UserDoc
}.

Definition empty_db : Database := mkDb [] [].

(** [HTTPException(status_code, detail)] *)
Record HTTPException := mkHTTP {
  status_code : Z;
  detail : string
}.

(** ** Handlers as state transformers that may raise

    A computation runs on the database and either returns a value or
    raises; in both cases it leaves the database as the writes made so far
    have left it. *)

Definition M (A : Type) : Type := Database -> (HTTPException + A) * Database.

Definition ret {A} (a : A) : M A := fun db => (inr a, db).

Definition bind {A B} (m : M A) (k : A -> M B) : M B :=
  fun db =>
    match m db with
    | (inl e, db') => (inl e, db')
    | (inr a, db') => k a db'
    end.

Definition raise {A} (e : HTTPException) : M A := fun db => (inl e, db).

Definition gets {A} (f : Database -> A) : M A := fun db => (inr (f db), db).

Definition modify (f : Database -> Database) : M unit :=
  fun db => (inr tt, f db).

Notation "x <- m ;; k" := (bind m (fun x => k))
  (at level 100, m at next level, right associativity).
Notation "m ;;; k" := (bind m (fun _ => k))
  (at level 100, right associativity).

(** *** The [otp] collection *)

(** The dictionary [otp_doc] that [request_otp] hands to
    [create_document]. *)
Record OtpFields := mkOtpFields {
  f_email : string;
  f_code : string;
  f_expires_at : datetime;
  f_used : bool
}.

(** Modelled from the spec: [create_document] of the module [database],
    which main.py imports and which is not among the sources.  The spec's
    Persistence Gateway has [InsertOtp(record)] store the record, and its
    data model gives an OtpRecord the fields email, code, createdAt,
    expiresAt and used: the document is appended to the collection with
    [created_at] set to the clock reading [now] of the insertion. *)
Definition create_document (data : OtpFields) (now : datetime) : M unit :=
  modify (fun db =>
    mkDb (otp db ++ [mkOtp (f_email data) (f_code data) (f_expires_at data)
                           (f_used data) now None])
         (authuser db)).

(** The filter of [verify_otp]:
    [{"email": email, "code": code, "used": False, "expires_at": {"$gte": now}}];
    the bound [now] reaches the store in milliseconds. *)
Definition otp_filter (email code : string) (now : datetime) (d : OtpDoc) : bool :=
  String.eqb (o_email d) email && String.eqb (o_code d) code
  && negb (o_used d) && (floor_ms now <=? o_expires_at d).

(** [find_one(filter, sort=[("created_at", -1)])] on the documents [l],
    the first of which has [_id] [i]: a document that passes the filter
    with the greatest [created_at], with its [_id].  Among documents with
    the same greatest [created_at] the earliest inserted is returned. *)
Fixpoint find_one_newest (q : OtpDoc -> bool) (i : nat) (l : list OtpDoc)
  : option (nat * OtpDoc) :=
  match l with
  | [] => None
  | d :: l' =>
      let rest := find_one_newest q (S i) l' in
      if q d then
        match rest with
        | Some (j, d') =>
            if o_created_at d <? o_created_at d' then Some (j, d') else Some (i, d)
        | None => Some (i, d)
        end
      else rest
  end.

Definition otp_find_one (email code : string) (now : datetime)
  : M (option (nat * OtpDoc)) :=
  gets (fun db => find_one_newest (otp_filter email code now) 0 (otp db)).

(** [{"$set": {"used": True, "updated_at": now}}]; the date is stored in
    milliseconds. *)
Definition set_used (now : datetime) (d : OtpDoc) : OtpDoc :=
  mkOtp (o_email d) (o_code d) (o_expires_at d) true (o_created_at d)
        (Some (floor_ms now)).

(** [db["otp"].update_one({"_id": id}, {"$set": {"used": True, "updated_at": now}})] *)
Definition otp_update_one (id : nat) (now : datetime) : M unit :=
  modify (fun db => mkDb (alter (set_used now) id (otp db)) (authuser db)).

(** *** The [authuser] collection *)

(** [db["authuser"].find_one({"email": email})]: the first document with
    that email. *)
Fixpoint find_user (email : string) (l : list UserDoc) : option UserDoc :=
  match l with
  | [] => None
  | u :: l' => if String.eqb (u_email u) email then Some u else find_user email l'
  end.

Definition authuser_find_one (email : string) : M (option UserDoc) :=
  gets (fun db => find_user email (authuser db)).

(** [db["authuser"].insert_one(doc)] *)
Definition authuser_insert_one (u : UserDoc) : M unit :=
  modify (fun db => mkDb (otp db) (authuser db ++ [u])).

(** [{"$set": {"is_verified": True, "last_login": now, "updated_at": now}}];
    the dates are stored in milliseconds. *)
Definition set_verified (now : datetime) (u : UserDoc) : UserDoc :=
  mkUser (u_email u) (u_display_name u) true (Some (floor_ms now))
         (u_created_at u) (floor_ms now).

(** [update_one({"email": email}, {"$set": ...}, upsert=True)] on the
    documents [l]: the first document with that email is updated; when
    there is none, a document made of the filter's email and the fields
    set is inserted. *)
Fixpoint upsert_verified (email : string) (now : datetime) (l : list UserDoc)
  : list UserDoc :=
  match l with
  | [] => [mkUser email None true (Some (floor_ms now)) None (floor_ms now)]
  | u :: l' =>
      if String.eqb (u_email u) email then set_verified now u :: l'
      else u :: upsert_verified email now l'
  end.

Definition authuser_update_one_upsert (email : string) (now : datetime) : M unit :=
  modify (fun db => mkDb (otp db) (upsert_verified email now (authuser db))).

(** ** The handlers *)

Record RequestOtpPayload := mkRequestOtpPayload { rq_email : string }.

Record VerifyOtpPayload := mkVerifyOtpPayload {
  vp_email : string;
  vp_code : string
}.

(** What [request_otp] takes from its environment: the draw of
    [random.randint(0, 999999)] and the readings of the clock, in the
    order the handler makes them ([clk_created] is the reading of
    [create_document]). *)
Record RequestEnv := mkRequestEnv {
  randint : N;
  clk_now : datetime;
  clk_created : datetime;
  clk_user_created : datetime;
  clk_user_updated : datetime
}.

(** The body returned by [request_otp]. *)
Record RequestOtpResponse := mkRequestOtpResponse {
  message : string;
  dev_otp : string;
  expires_in_seconds : Z
}.

(** The body returned by [verify_otp]. *)
Record VerifyOtpResponse := mkVerifyOtpResponse {
  success : bool;
  token : string;
  email : string
}.

Definition normalize_email (e : string) : string := PyStr.strip (PyStr.lower e).

(** [request_otp], past the test of [db]. *)
Definition request_otp_body (payload : RequestOtpPayload) (env : RequestEnv)
  : M RequestOtpResponse :=
  let email := normalize_email (rq_email payload) in
  let code := PyStr.format_06d (randint env) in
  let expires_at := clk_now env + timedelta_minutes 5 in
  let otp_doc := mkOtpFields email code expires_at false in
  create_document otp_doc (clk_created env) ;;;
  existing <- authuser_find_one email ;;
  match existing with
  | None =>
      authuser_insert_one
        (mkUser email None false None (Some (clk_user_created env))
                (clk_user_updated env))
  | Some _ => ret tt
  end ;;;
  ret (mkRequestOtpResponse "OTP sent to your email" code 300).

(** [verify_otp], past the test of [db]; [now] is the reading of the
    clock. *)
Definition verify_otp_body (payload : VerifyOtpPayload) (now : datetime)
  : M VerifyOtpResponse :=
  let email := normalize_email (vp_email payload) in
  let code := PyStr.strip (vp_code payload) in
  found <- otp_find_one email code now ;;
  match found with
  | None => raise (mkHTTP 400 "Invalid or expired code")
  | Some (id, _) =>
      otp_update_one id now ;;;
      authuser_update_one_upsert email now ;;;
      let token := ("demo-token-" +:+ email)%string in
      ret (mkVerifyOtpResponse true token email)
  end.

(** A handler on the global [db], which is [None] when no database is
    configured. *)
Definition with_db {A} (db : option Database) (m : M A)
  : (HTTPException + A) * option Database :=
  match db with
  | None => (inl (mkHTTP 500 "Database not configured"), None)
  | Some d => let '(r, d') := m d in (r, Some d')
  end.

Definition request_otp (db : option Database) (payload : RequestOtpPayload)
  (env : RequestEnv) : (HTTPException + RequestOtpResponse) * option Database :=
  with_db db (request_otp_body payload env).

Definition verify_otp (db : option Database) (payload : VerifyOtpPayload)
  (now : datetime) : (HTTPException + VerifyOtpResponse) * option Database :=
  with_db db (verify_otp_body payload now).

(** The error of [verify_otp] when no record matches. *)
Definition InvalidOrExpired : HTTPException := mkHTTP 400 "Invalid or expired code".

(** The error of both handlers when no database is configured. *)
Definition StorageUnavailable : HTTPException := mkHTTP 500 "Database not configured".

(** ** Runs of the service *)

Inductive Op :=
| RequestOTP (payload : RequestOtpPayload) (env : RequestEnv)
| VerifyOTP (payload : VerifyOtpPayload) (now : datetime).

(** One call: the database it leaves. *)
Definition step (db : option Database) (op : Op) : option Database :=
  match op with
  | RequestOTP p env => snd (request_otp db p env)
  | VerifyOTP p now => snd (verify_otp db p now)
  end.

Definition run (db : option Database) (ops : list Op) : option Database :=
  foldl step db ops.

(** *** Observers of a run *)

(** The records not yet used. *)
Definition count_unused (l : list OtpDoc) : nat :=
  length (List.filter (fun d => negb (o_used d)) l).

(** Whether a call is a VerifyOTP that succeeds on [db]. *)
Definition verified (db : option Database) (op : Op) : bool :=
  match op with
  | RequestOTP _ _ => false
  | VerifyOTP p now =>
      match fst (verify_otp db p now) with
      | inr _ => true
      | inl _ => false
      end
  end.

(** The number of successful VerifyOTP calls of a run. *)
Fixpoint count_verified (db : option Database) (ops : list Op) : nat :=
  match ops with
  | [] => 0%nat
  | op :: ops' =>
      ((if verified db op then 1 else 0) + count_verified (step db op) ops')%nat
  end.

Definition is_request (op : Op) : bool :=
  match op with
  | RequestOTP _ _ => true
  | VerifyOTP _ _ => false
  end.

(** The number of RequestOTP calls of a run. *)
Definition count_requests (ops : list Op) : nat :=
  length (List.filter is_request ops).

(** The draw of a RequestOTP call is one [random.randint(0, 999999)] can
    return. *)
Definition draw_in_range (op : Op) : bool :=
  match op with
  | RequestOTP _ env => (randint env <=? 999999)%N
  | VerifyOTP _ _ => true
  end.

(** ** schemas.py *)

(** The constraint of the field [code] of the model [Otp]:
    [Field(..., min_length=4, max_length=10)]. *)
Definition Otp_code_valid (code : string) : bool :=
  ((4 <=? String.length code) && (String.length code <=? 10))%nat.

(** ** The diagnostic endpoint [test_database] *)

Module Diag.

(** A [str] of the report, as the list of its code points: the report
    holds characters above 255. *)
Definition text := list N.

(** An ASCII literal. *)
Fixpoint lit (s : string) : text :=
  match s with
  | EmptyString => []
  | String c s' => N_of_ascii c :: lit s'
  end.

(** U+2705, U+274C, and U+26A0 U+FE0F. *)
Definition check_mark : text := [9989%N].
Definition cross_mark : text := [10060%N].
Definition warning_sign : text := [9888%N; 65039%N].

(** What reading an attribute of an object gives: no such attribute (an
    [AttributeError]), a value, or another exception, with its [str]. *)
Inductive Attr :=
| AttrMissing
| AttrValue (v : text)
| AttrRaises (msg : text).

(** What [test_database] observes of the handle [db]: the attribute
    [name], and the outcome of [list_collection_names()], either the
    [str] of the exception raised or the names. *)
Record DbHandle := mkHandle {
  h_name : Attr;
  h_list_collection_names : text + list text
}.

(** The dictionary [response]. *)
Record Response := mkResponse {
  backend : text;
  database : text;
  database_url : option text;
  database_name : option text;
  connection_status : text;
  collections : list text
}.

Definition set_database (v : text) (r : Response) : Response :=
  mkResponse (backend r) v (database_url r) (database_name r)
    (connection_status r) (collections r).

Definition set_database_url (v : option text) (r : Response) : Response :=
  mkResponse (backend r) (database r) v (database_name r)
    (connection_status r) (collections r).

Definition set_database_name (v : option text) (r : Response) : Response :=
  mkResponse (backend r) (database r) (database_url r) v
    (connection_status r) (collections r).

Definition set_connection_status (v : text) (r : Response) : Response :=
  mkResponse (backend r) (database r) (database_url r) (database_name r)
    v (collections r).

Definition set_collections (v : list text) (r : Response) : Response :=
  mkResponse (backend r) (database r) (database_url r) (database_name r)
    (connection_status r) v.

(** The truth value of what [os.getenv] returns: a non-empty string. *)
Definition truthy (v : option text) : bool :=
  match v with
  | Some (_ :: _) => true
  | _ => false
  end.

(** [test_database]; [getenv] is [os.getenv]. *)
Definition test_database (db : option DbHandle) (getenv : string -> option text)
  : Response :=
  let response :=
    mkResponse (check_mark ++ lit " Running") (cross_mark ++ lit " Not Available")
      None None (lit "Not Connected") [] in
  let response :=
    match db with
    | Some h =>
        let response := set_database (check_mark ++ lit " Available") response in
        let response :=
          set_database_url (Some (check_mark ++ lit " Configured")) response in
        match h_name h with
        | AttrRaises msg =>
            (* the outer [except] *)
            set_database (cross_mark ++ lit " Error: " ++ take 50 msg) response
        | attr =>
            let name :=
              match attr with
              | AttrValue v => v
              | _ => check_mark ++ lit " Connected"
              end in
            let response := set_database_name (Some name) response in
            let response := set_connection_status (lit "Connected") response in
            match h_list_collection_names h with
            | inr names =>
                let response := set_collections (take 10 names) response in
                set_database (check_mark ++ lit " Connected & Working") response
            | inl msg =>
                (* the inner [except] *)
                set_database
                  (warning_sign ++ lit "  Connected but Error: " ++ take 50 msg)
                  response
            end
        end
    | None =>
        set_database (warning_sign ++ lit "  Available but not initialized") response
    end in
  let response :=
    set_database_url
      (Some (if truthy (getenv "DATABASE_URL") then check_mark ++ lit " Set"
             else cross_mark ++ lit " Not Set")) response in
  set_database_name
    (Some (if truthy (getenv "DATABASE_NAME") then check_mark ++ lit " Set"
           else cross_mark ++ lit " Not Set")) response.

End Diag.

(** * Properties *)

Example format_06d_42 : PyStr.format_06d 42 = "000042"%string.
Proof. reflexivity. Qed.

Example format_06d_max : PyStr.format_06d 999999 = "999999"%string.
Proof. reflexivity. Qed.

Example strip_lower_ex :
  PyStr.strip (PyStr.lower "  Alice@Example.COM "%string) = "alice@example.com"%string.
Proof. reflexivity. Qed.

Example end_to_end :
  let '(r1, db1) := request_otp (Some empty_db) (mkRequestOtpPayload "a@b.com")
                      (mkRequestEnv 123456 0 1 2 3) in
  let '(r2, db2) := verify_otp db1 (mkVerifyOtpPayload "a@b.com" "123456") 1000 in
  let '(r3, db3) := verify_otp db2 (mkVerifyOtpPayload "a@b.com" "123456") 2000 in
  r1 = inr (mkRequestOtpResponse "OTP sent to your email" "123456" 300)
  /\ r2 = inr (mkVerifyOtpResponse true "demo-token-a@b.com" "a@b.com")
  /\ r3 = inl InvalidOrExpired.
Proof. vm_compute. auto. Qed.

(** ** Strings *)

Section StringFacts.
Import PyStr.

Local Ltac by_code_point c :=
  destruct c as [[] [] [] [] [] [] [] []]; vm_compute; congruence.

Lemma lower_char_idem c : lower_char (lower_char c) = lower_char c.
Proof. by_code_point c. Qed.

Lemma isspace_lower_char c : isspace (lower_char c) = isspace c.
Proof. by_code_point c. Qed.

Lemma digit_not_space c : is_digit c = true -> isspace c = false.
Proof. by_code_point c. Qed.

Lemma lower_idem s : lower (lower s) = lower s.
Proof. induction s as [|c s IH]; simpl; [done|]. by rewrite lower_char_idem, IH. Qed.

Lemma lower_lstrip s : lower (lstrip s) = lstrip (lower s).
Proof.
  induction s as [|c s IH]; simpl; [done|].
  rewrite isspace_lower_char. by destruct (isspace c).
Qed.

Lemma lower_rstrip s : lower (rstrip s) = rstrip (lower s).
Proof.
  induction s as [|c s IH]; simpl; [done|].
  rewrite <- IH, isspace_lower_char.
  destruct (rstrip s); simpl; [by destruct (isspace c)|done].
Qed.

Lemma lower_strip s : lower (strip s) = strip (lower s).
Proof. unfold strip. by rewrite lower_rstrip, lower_lstrip. Qed.

Lemma no_lead_lstrip s : no_lead (lstrip s) = true.
Proof.
  induction s as [|c s IH]; simpl; [done|].
  destruct (isspace c) eqn:E; [done|]. simpl. by rewrite E.
Qed.

Lemma lstrip_no_lead s : no_lead s = true -> lstrip s = s.
Proof. destruct s as [|c s]; simpl; [done|]. destruct (isspace c); simpl; done. Qed.

Lemma no_lead_rstrip s : no_lead s = true -> no_lead (rstrip s) = true.
Proof.
  destruct s as [|c s]; simpl; [done|]. intros H.
  destruct (rstrip s); simpl; [|done].
  destruct (isspace c) eqn:E; simpl in *; [done|]. by rewrite E.
Qed.

Lemma rstrip_idem s : rstrip (rstrip s) = rstrip s.
Proof.
  induction s as [|c s IH]; simpl; [done|].
  destruct (rstrip s) as [|c' r] eqn:E.
  - destruct (isspace c) eqn:Ec; simpl; [done|]. by rewrite Ec.
  - change (rstrip (String c (String c' r))) with
      (match rstrip (String c' r) with
       | EmptyString => if isspace c then EmptyString else String c EmptyString
       | r0 => String c r0 end).
    by rewrite IH.
Qed.

Lemma strip_idem s : strip (strip s) = strip s.
Proof.
  unfold strip.
  rewrite (lstrip_no_lead (rstrip (lstrip s))).
  - apply rstrip_idem.
  - apply no_lead_rstrip, no_lead_lstrip.
Qed.

Lemma lstrip_all_space w : all_space w = true -> lstrip w = EmptyString.
Proof.
  induction w as [|c w IH]; simpl; [done|].
  destruct (isspace c); simpl; [done|discriminate].
Qed.

Lemma rstrip_all_space w : all_space w = true -> rstrip w = EmptyString.
Proof.
  induction w as [|c w IH]; simpl; [done|].
  destruct (isspace c); simpl; [|discriminate].
  intros H. by rewrite IH.
Qed.

Lemma lstrip_app_space w s : all_space w = true -> lstrip (w +:+ s) = lstrip s.
Proof.
  induction w as [|c w IH]; simpl; [done|].
  destruct (isspace c); simpl; [done|discriminate].
Qed.

Lemma rstrip_app_space s w : all_space w = true -> rstrip (s +:+ w) = rstrip s.
Proof.
  intros Hw. induction s as [|c s IH]; simpl.
  - by apply rstrip_all_space.
  - by rewrite IH.
Qed.

Lemma strip_app_space_r s w : all_space w = true -> strip (s +:+ w) = strip s.
Proof.
  intros Hw. unfold strip. induction s as [|c s IH].
  - change (EmptyString +:+ w) with w. by rewrite (lstrip_all_space w Hw).
  - change (String c s +:+ w) with (String c (s +:+ w)). simpl.
    destruct (isspace c); [done|].
    change (String c (s +:+ w)) with (String c s +:+ w).
    by apply rstrip_app_space.
Qed.

(** Whitespace around a string does not change what [strip] returns. *)
Lemma strip_padded w1 s w2 :
  all_space w1 = true -> all_space w2 = true ->
  strip (w1 +:+ s +:+ w2) = strip s.
Proof.
  intros H1 H2. unfold strip at 1. rewrite lstrip_app_space by done.
  by apply strip_app_space_r.
Qed.

Lemma normalize_email_idem e : normalize_email (normalize_email e) = normalize_email e.
Proof.
  unfold normalize_email.
  by rewrite lower_strip, lower_idem, strip_idem.
Qed.

Lemma strip_digits s : all_digits s = true -> strip s = s.
Proof.
  intros H. unfold strip.
  assert (Hl : lstrip s = s).
  { destruct s as [|c s]; simpl in *; [done|].
    apply andb_true_iff in H as [Hc _]. by rewrite (digit_not_space c Hc). }
  rewrite Hl. clear Hl.
  induction s as [|c s IH]; simpl in *; [done|].
  apply andb_true_iff in H as [Hc Hs]. rewrite (IH Hs).
  destruct s; [by rewrite (digit_not_space c Hc)|done].
Qed.

End StringFacts.

(** ** Formatting the code *)

Section FormatFacts.
Import PyStr.
Local Open Scope N_scope.

Lemma N_of_digit_char d : d < 10 -> N_of_ascii (digit_char d) = 48 + d.
Proof. intros H. unfold digit_char. apply N_ascii_embedding. lia. Qed.

Lemma is_digit_digit_char d : d < 10 -> is_digit (digit_char d) = true.
Proof.
  intros H. unfold is_digit. rewrite N_of_digit_char by done.
  apply andb_true_iff. split; apply N.leb_le; lia.
Qed.

Lemma string_length_app s t :
  String.length (s +:+ t) = (String.length s + String.length t)%nat.
Proof.
  induction s as [|c s IH]; [done|].
  change (String c s +:+ t) with (String c (s +:+ t)). simpl. by rewrite IH.
Qed.

Lemma all_digits_app s t : all_digits (s +:+ t) = all_digits s && all_digits t.
Proof.
  induction s as [|c s IH]; [done|].
  change (String c s +:+ t) with (String c (s +:+ t)). simpl.
  by rewrite IH, andb_assoc.
Qed.

Lemma int_acc_app acc s t : int_acc acc (s +:+ t) = int_acc (int_acc acc s) t.
Proof.
  revert acc. induction s as [|c s IH]; intros acc; [done|].
  change (String c s +:+ t) with (String c (s +:+ t)). simpl. apply IH.
Qed.

Lemma all_digits_str_fuel f n : all_digits (str_fuel f n) = true.
Proof.
  revert n. induction f as [|f IH]; intros n; simpl; [done|].
  destruct (N.ltb_spec n 10) as [Hn|Hn]; simpl.
  - by rewrite is_digit_digit_char.
  - rewrite all_digits_app, IH. simpl.
    rewrite is_digit_digit_char; [done|]. apply N.mod_lt. lia.
Qed.

(** A number below [10^(k+1)] has at most [k+1] digits. *)
Lemma length_str_fuel f k n :
  n < 10 ^ N.of_nat (S k) -> (String.length (str_fuel f n) <= S k)%nat.
Proof.
  revert k n. induction f as [|f IH]; intros k n Hn; simpl; [lia|].
  destruct (N.ltb_spec n 10) as [Hlt|Hge]; simpl; [lia|].
  rewrite string_length_app. simpl.
  destruct k as [|k].
  - change (10 ^ N.of_nat 1) with 10 in Hn. lia.
  - assert (Hd : n / 10 < 10 ^ N.of_nat (S k)).
    { apply N.Div0.div_lt_upper_bound.
      rewrite (Nat2N.inj_succ (S k)), N.pow_succ_r' in Hn. lia. }
    specialize (IH k _ Hd). lia.
Qed.

(** With fuel for every binary digit, [int] reads back what [str_fuel]
    has written. *)
Lemma int_str_fuel f n : n < 2 ^ N.of_nat f -> int_acc 0 (str_fuel f n) = n.
Proof.
  revert n. induction f as [|f IH]; intros n Hn.
  - change (2 ^ N.of_nat 0) with 1 in Hn. simpl. lia.
  - simpl. destruct (N.ltb_spec n 10) as [Hlt|Hge].
    + cbn [int_acc]. rewrite N_of_digit_char by done. lia.
    + rewrite int_acc_app. cbn [int_acc].
      rewrite Nat2N.inj_succ, N.pow_succ_r' in Hn.
      rewrite IH.
      * rewrite N_of_digit_char by (apply N.mod_lt; lia).
        rewrite (N.add_comm 48), N.add_sub. symmetry. apply N.div_mod. lia.
      * apply N.Div0.div_lt_upper_bound. lia.
Qed.

Lemma str_fuel_enough n : n < 2 ^ N.of_nat (S (N.to_nat (N.log2 n))).
Proof.
  rewrite Nat2N.inj_succ, N2Nat.id.
  destruct (N.eq_dec n 0) as [->|Hn]; [done|].
  apply N.log2_spec. lia.
Qed.

Lemma int_str n : int (str n) = n.
Proof. apply int_str_fuel, str_fuel_enough. Qed.

Lemma int_acc_zeros k s : int_acc 0 (zeros k +:+ s) = int_acc 0 s.
Proof.
  induction k as [|k IH]; [done|].
  change (zeros (S k) +:+ s) with (String "0"%char (zeros k +:+ s)).
  simpl. apply IH.
Qed.

Lemma length_zeros k : String.length (zeros k) = k.
Proof. induction k as [|k IH]; simpl; [done|]. by rewrite IH. Qed.

Lemma all_digits_zeros k : all_digits (zeros k) = true.
Proof. induction k as [|k IH]; simpl; done. Qed.

(** The decimal value of the formatted number is the number: the zeros
    that pad it are leading zeros. *)
Lemma int_format_0d w n : int (format_0d w n) = n.
Proof. unfold int, format_0d. rewrite int_acc_zeros. apply int_str. Qed.

Lemma all_digits_format_0d w n : all_digits (format_0d w n) = true.
Proof.
  unfold format_0d, str. by rewrite all_digits_app, all_digits_zeros, all_digits_str_fuel.
Qed.

Lemma length_format_06d n : n <= 999999 -> String.length (format_06d n) = 6%nat.
Proof.
  intros Hn. unfold format_06d, format_0d.
  rewrite string_length_app, length_zeros.
  assert (H6 : (String.length (str n) <= 6)%nat).
  { apply length_str_fuel. change (10 ^ N.of_nat 6) with 1000000. lia. }
  lia.
Qed.

Lemma format_06d_inj n m : format_06d n = format_06d m -> n = m.
Proof.
  intros H. rewrite <- (int_format_0d 6 n), <- (int_format_0d 6 m).
  unfold format_06d in H. by rewrite H.
Qed.

Lemma strip_format_06d n : strip (format_06d n) = format_06d n.
Proof. apply strip_digits, all_digits_format_0d. Qed.

End FormatFacts.

(** ** The store *)

Section StoreFacts.
Implicit Types (l : list OtpDoc) (q : OtpDoc -> bool) (d : OtpDoc).

Lemma find_one_newest_None q i l :
  find_one_newest q i l = None <-> (forall k d, l !! k = Some d -> q d = false).
Proof.
  revert i. induction l as [|d0 l IH]; intros i; simpl.
  - split; [intros _ k d Hk; by destruct k|done].
  - split.
    + intros H k d Hk.
      destruct (q d0) eqn:Hq.
      * destruct (find_one_newest q (S i) l) as [[j d']|]; [|done].
        by destruct (o_created_at d0 <? o_created_at d').
      * destruct k as [|k]; simpl in Hk; [congruence|].
        by apply (proj1 (IH (S i)) H k).
    + intros H. rewrite (H 0%nat d0 eq_refl).
      apply IH. intros k d Hk. by apply (H (S k)).
Qed.

Lemma find_one_newest_Some q i l j d :
  find_one_newest q i l = Some (j, d) ->
  exists k, j = (i + k)%nat /\ l !! k = Some d /\ q d = true /\
    forall k' d', l !! k' = Some d' -> q d' = true ->
      o_created_at d' <= o_created_at d.
Proof.
  revert i j d. induction l as [|d0 l IH]; intros i j d; simpl; [done|].
  destruct (find_one_newest q (S i) l) as [[j' d'']|] eqn:Hrest.
  - destruct (IH _ _ _ Hrest) as (k & -> & Hk & Hq & Hmax).
    destruct (q d0) eqn:Hq0.
    + destruct (Z.ltb_spec (o_created_at d0) (o_created_at d'')) as [Hlt|Hge];
        intros [= <- <-].
      * exists (S k). split_and!; [lia|done|done|].
        intros [|k'] d' Hk' Hq'; simpl in Hk'; [injection Hk' as <-; lia|eauto].
      * exists 0%nat. split_and!; [lia|done|done|].
        intros [|k'] d' Hk' Hq'; simpl in Hk'; [injection Hk' as <-; lia|].
        specialize (Hmax _ _ Hk' Hq'). lia.
    + intros [= <- <-]. exists (S k). split_and!; [lia|done|done|].
      intros [|k'] d' Hk' Hq'; simpl in Hk'; [congruence|eauto].
  - destruct (q d0) eqn:Hq0; [|done].
    intros [= <- <-]. exists 0%nat. split_and!; [lia|done|done|].
    intros [|k'] d' Hk' Hq'; simpl in Hk'; [injection Hk' as <-; lia|].
    rewrite (proj1 (find_one_newest_None q (S i) l) Hrest _ _ Hk') in Hq'. done.
Qed.

Lemma find_one_newest_is_Some q i l k d :
  l !! k = Some d -> q d = true -> is_Some (find_one_newest q i l).
Proof.
  intros Hk Hq.
  destruct (find_one_newest q i l) as [r|] eqn:E; [by exists r|].
  rewrite (proj1 (find_one_newest_None q i l) E _ _ Hk) in Hq. done.
Qed.

Lemma alter_as_insert (f : OtpDoc -> OtpDoc) l j d :
  l !! j = Some d -> alter f j l = <[j := f d]> l.
Proof.
  intros Hj. apply list_eq. intros k.
  destruct (decide (j = k)) as [<-|Hne].
  - rewrite list_lookup_alter_eq, Hj, list_lookup_insert_eq; [done|].
    by apply lookup_lt_Some in Hj.
  - by rewrite list_lookup_alter_ne, list_lookup_insert_ne.
Qed.

Lemma otp_filter_set_used e c now now' d : otp_filter e c now (set_used now' d) = false.
Proof. unfold otp_filter. simpl. by rewrite andb_false_r. Qed.

Lemma floor_ms_le t : floor_ms t <= t.
Proof. unfold floor_ms. apply Z.mul_div_le. lia. Qed.

Lemma floor_ms_gt t : t - 1000 < floor_ms t.
Proof.
  unfold floor_ms. pose proof (Z.mul_succ_div_gt t 1000 ltac:(lia)). lia.
Qed.

Lemma floor_ms_mono a b : a <= b -> floor_ms a <= floor_ms b.
Proof.
  intros H. unfold floor_ms. apply Z.mul_le_mono_nonneg_l; [lia|].
  apply Z.div_le_mono; lia.
Qed.

Lemma floor_ms_idem t : floor_ms (floor_ms t) = floor_ms t.
Proof.
  unfold floor_ms. rewrite (Z.mul_comm 1000 (t / 1000)), Z.div_mul by lia. lia.
Qed.

(** A bound in whole milliseconds sees a date and its truncation
    alike. *)
Lemma floor_ms_le_floor a b : floor_ms a <= b <-> floor_ms a <= floor_ms b.
Proof.
  split; intros H.
  - rewrite <- (floor_ms_idem a). by apply floor_ms_mono.
  - pose proof (floor_ms_le b). lia.
Qed.

Lemma otp_filter_true e c now d :
  otp_filter e c now d = true <->
  o_email d = e /\ o_code d = c /\ o_used d = false
  /\ floor_ms now <= o_expires_at d.
Proof.
  unfold otp_filter.
  rewrite !andb_true_iff, !String.eqb_eq, negb_true_iff, Z.leb_le. tauto.
Qed.

(** A record not yet expired at the reading of the clock passes the
    filter. *)
Lemma otp_filter_intro e c now d :
  o_email d = e -> o_code d = c -> o_used d = false -> now <= o_expires_at d ->
  otp_filter e c now d = true.
Proof.
  intros He Hc Hu Ht. apply otp_filter_true. split_and!; try done.
  pose proof (floor_ms_le now). lia.
Qed.

Lemma find_user_upsert_verified e now (l : list UserDoc) :
  exists u, find_user e (upsert_verified e now l) = Some u
    /\ u_email u = e /\ u_is_verified u = true
    /\ u_last_login u = Some (floor_ms now)
    /\ u_updated_at u = floor_ms now.
Proof.
  induction l as [|u0 l IH]; simpl.
  - rewrite String.eqb_refl. eexists. by repeat split.
  - destruct (String.eqb (u_email u0) e) eqn:E; simpl.
    + rewrite E. eexists. repeat split; try done. by apply String.eqb_eq.
    + by rewrite E.
Qed.

Lemma upsert_verified_absent e now (l : list UserDoc) :
  find_user e l = None ->
  upsert_verified e now l
  = l ++ [mkUser e None true (Some (floor_ms now)) None (floor_ms now)].
Proof.
  induction l as [|u0 l IH]; simpl; [done|].
  destruct (String.eqb (u_email u0) e); [done|].
  intros H. by rewrite IH.
Qed.

Lemma upsert_verified_present e now (l : list UserDoc) u :
  find_user e l = Some u ->
  length (upsert_verified e now l) = length l.
Proof.
  revert u. induction l as [|u0 l IH]; intros u; simpl; [done|].
  destruct (String.eqb (u_email u0) e); simpl; [done|].
  intros H. by rewrite (IH _ H).
Qed.

(** *** The handlers, unfolded *)

Lemma verify_otp_body_unfold p now db :
  verify_otp_body p now db =
  let e := normalize_email (vp_email p) in
  match find_one_newest (otp_filter e (PyStr.strip (vp_code p)) now) 0 (otp db) with
  | None => (inl InvalidOrExpired, db)
  | Some (j, _) =>
      (inr (mkVerifyOtpResponse true ("demo-token-" +:+ e) e),
       mkDb (alter (set_used now) j (otp db)) (upsert_verified e now (authuser db)))
  end.
Proof.
  unfold verify_otp_body, bind, otp_find_one, gets. simpl.
  by destruct (find_one_newest _ 0 (otp db)) as [[j d]|].
Qed.

Lemma request_otp_body_unfold p env db :
  request_otp_body p env db =
  let e := normalize_email (rq_email p) in
  let code := PyStr.format_06d (randint env) in
  (inr (mkRequestOtpResponse "OTP sent to your email" code 300),
   mkDb (otp db ++ [mkOtp e code (clk_now env + timedelta_minutes 5) false
                          (clk_created env) None])
        (match find_user e (authuser db) with
         | None => authuser db ++
             [mkUser e None false None (Some (clk_user_created env))
                     (clk_user_updated env)]
         | Some _ => authuser db
         end)).
Proof.
  unfold request_otp_body, bind, create_document, authuser_find_one,
    authuser_insert_one, modify, gets, ret. simpl.
  by destruct (find_user _ (authuser db)).
Qed.

End StoreFacts.

(** ** verify_otp on a configured database *)

Section VerifyFacts.
Implicit Types (db : Database) (p : VerifyOtpPayload) (now : datetime).

(** The filter that [verify_otp] builds from its payload. *)
Lemma verify_otp_fails db p now :
  (forall k d, otp db !! k = Some d ->
     otp_filter (normalize_email (vp_email p)) (PyStr.strip (vp_code p)) now d = false) ->
  verify_otp (Some db) p now = (inl InvalidOrExpired, Some db).
Proof.
  intros H. unfold verify_otp, with_db. rewrite verify_otp_body_unfold. simpl.
  by rewrite (proj2 (find_one_newest_None _ 0 (otp db)) H).
Qed.

Lemma verify_otp_succeeds db p now k d :
  let e := normalize_email (vp_email p) in
  let q := otp_filter e (PyStr.strip (vp_code p)) now in
  otp db !! k = Some d -> q d = true ->
  exists j dj,
    otp db !! j = Some dj /\ q dj = true
    /\ (forall k' d', otp db !! k' = Some d' -> q d' = true ->
          o_created_at d' <= o_created_at dj)
    /\ verify_otp (Some db) p now =
         (inr (mkVerifyOtpResponse true ("demo-token-" +:+ e) e),
          Some (mkDb (<[j := set_used now dj]> (otp db))
                     (upsert_verified e now (authuser db)))).
Proof.
  intros e q Hk Hq.
  destruct (find_one_newest_is_Some q 0 (otp db) k d Hk Hq) as [[j dj] Hf].
  destruct (find_one_newest_Some _ _ _ _ _ Hf) as (k0 & -> & Hj & Hqj & Hmax).
  exists k0, dj. split_and!; [done|done|done|].
  unfold verify_otp, with_db. rewrite verify_otp_body_unfold. simpl.
  fold e q. rewrite Hf. simpl. by rewrite (alter_as_insert _ _ _ _ Hj).
Qed.

(** Every outcome of [verify_otp] on a configured database. *)
Lemma verify_otp_cases db p now :
  let e := normalize_email (vp_email p) in
  let q := otp_filter e (PyStr.strip (vp_code p)) now in
  ((forall k d, otp db !! k = Some d -> q d = false)
   /\ verify_otp (Some db) p now = (inl InvalidOrExpired, Some db))
  \/ (exists j dj, otp db !! j = Some dj /\ q dj = true
      /\ verify_otp (Some db) p now =
           (inr (mkVerifyOtpResponse true ("demo-token-" +:+ e) e),
            Some (mkDb (<[j := set_used now dj]> (otp db))
                       (upsert_verified e now (authuser db))))).
Proof.
  intros e q.
  destruct (find_one_newest q 0 (otp db)) as [[j dj]|] eqn:Hf.
  - right. destruct (find_one_newest_Some _ _ _ _ _ Hf) as (k0 & -> & Hj & Hqj & _).
    destruct (verify_otp_succeeds db p now k0 dj Hj Hqj) as (j' & dj' & ? & ? & _ & ?).
    by exists j', dj'.
  - left. pose proof (proj1 (find_one_newest_None _ _ _) Hf) as Hnone.
    split; [done|]. by apply verify_otp_fails.
Qed.

Lemma request_otp_Some db (p : RequestOtpPayload) env :
  request_otp (Some db) p env =
  (fst (request_otp_body p env db), Some (snd (request_otp_body p env db))).
Proof. unfold request_otp, with_db. by destruct (request_otp_body p env db). Qed.

End VerifyFacts.

(** ** The OTP life cycle *)

(** C1, as stated, fails: two requests for one email that draw the same
    code leave two records that match; the first call uses one of them and
    the second call, with the same email and code, succeeds on the
    other. *)
Lemma verify_twice_duplicate_code :
  let p := mkRequestOtpPayload "a@b.com" in
  let db1 := snd (request_otp (Some empty_db) p (mkRequestEnv 123456 0 1 2 3)) in
  let db2 := snd (request_otp db1 p (mkRequestEnv 123456 10 11 12 13)) in
  let v := mkVerifyOtpPayload "a@b.com" "123456" in
  let ok := inr (mkVerifyOtpResponse true "demo-token-a@b.com" "a@b.com") in
  fst (verify_otp db2 v 1000) = ok
  /\ fst (verify_otp (snd (verify_otp db2 v 1000)) v 2000) = ok
  /\ fst (verify_otp (snd (verify_otp db2 v 1000)) v 2000) <> inl InvalidOrExpired.
Proof. vm_compute. by split_and!. Qed.

(** C1, amended: a record that matches the call (right email and code,
    unused, unexpired) makes the first [verify_otp] succeed; when no other
    record matches either call, the second call with the same email and
    code fails with InvalidOrExpired and writes nothing. *)
Theorem verify_succeeds_exactly_once
  (db : Database) (i : nat) (d : OtpDoc) (p : VerifyOtpPayload)
  (now1 now2 : datetime) :
  let q := otp_filter (normalize_email (vp_email p)) (PyStr.strip (vp_code p)) in
  otp db !! i = Some d ->
  q now1 d = true ->
  (forall j d', j <> i -> otp db !! j = Some d' ->
     q now1 d' = false /\ q now2 d' = false) ->
  exists r db1,
    verify_otp (Some db) p now1 = (inr r, Some db1)
    /\ success r = true
    /\ otp db1 !! i = Some (set_used now1 d)
    /\ verify_otp (Some db1) p now2 = (inl InvalidOrExpired, Some db1).
Proof.
  intros q Hi Hq Hothers.
  destruct (verify_otp_succeeds db p now1 i d Hi Hq) as (j & dj & Hj & Hqj & _ & Hv).
  fold q in Hqj.
  assert (j = i) as ->.
  { destruct (decide (j = i)) as [|Hne]; [done|].
    destruct (Hothers j dj Hne Hj) as [Hf _]. congruence. }
  assert (dj = d) as -> by congruence.
  eexists _, _. split; [exact Hv|]. split; [done|].
  pose proof (lookup_lt_Some _ _ _ Hi) as Hlen.
  split; [by apply list_lookup_insert_eq|].
  apply verify_otp_fails. simpl. intros k d' Hk.
  destruct (decide (i = k)) as [<-|Hne].
  - rewrite list_lookup_insert_eq in Hk by done.
    injection Hk as <-. apply otp_filter_set_used.
  - rewrite list_lookup_insert_ne in Hk by done.
    by destruct (Hothers k d' (not_eq_sym Hne) Hk).
Qed.

Lemma verify_succeeds_exactly_once_witness :
  let db := mkDb [mkOtp "a@b.com" "000042" 300000000 false 0 None] [] in
  exists r db1,
    verify_otp (Some db) (mkVerifyOtpPayload " A@b.com" "000042 ") 1000
      = (inr r, Some db1)
    /\ success r = true
    /\ otp db1 !! 0%nat = Some (set_used 1000 (mkOtp "a@b.com" "000042" 300000000 false 0 None))
    /\ verify_otp (Some db1) (mkVerifyOtpPayload " A@b.com" "000042 ") 2000
      = (inl InvalidOrExpired, Some db1).
Proof.
  apply (verify_succeeds_exactly_once
           (mkDb [mkOtp "a@b.com" "000042" 300000000 false 0 None] [])
           0 (mkOtp "a@b.com" "000042" 300000000 false 0 None)
           (mkVerifyOtpPayload " A@b.com" "000042 ") 1000 2000).
  - reflexivity.
  - vm_compute. reflexivity.
  - intros [|j] d' Hne Hj; [congruence|]. destruct j; discriminate.
Defined.

(** C3: when records match a [verify_otp] call (same normalized email,
    same code, unused, [expires_at >= now]), one or several, the call
    succeeds and the record it marks used is a match whose [created_at]
    is the greatest among the matches; no other record changes. *)
Theorem verify_marks_newest_match
  (db : Database) (p : VerifyOtpPayload) (now : datetime) (i : nat) (d : OtpDoc) :
  let e := normalize_email (vp_email p) in
  let q := otp_filter e (PyStr.strip (vp_code p)) now in
  otp db !! i = Some d ->
  q d = true ->
  exists j dj r db1,
    verify_otp (Some db) p now = (inr r, Some db1)
    /\ otp db !! j = Some dj /\ q dj = true
    /\ (forall k dk, otp db !! k = Some dk -> q dk = true ->
          o_created_at dk <= o_created_at dj)
    /\ otp db1 = <[j := set_used now dj]> (otp db)
    /\ o_used (set_used now dj) = true
    /\ (forall k, k <> j -> otp db1 !! k = otp db !! k).
Proof.
  intros e q Hi Hq.
  destruct (verify_otp_succeeds db p now i d Hi Hq) as (j & dj & Hj & Hqj & Hmax & Hv).
  exists j, dj. eexists _, _. split; [exact Hv|].
  split_and!; try done.
  intros k Hne. simpl. by rewrite list_lookup_insert_ne.
Qed.

Lemma verify_marks_newest_match_witness :
  let old := mkOtp "a@b.com" "123456" 300000000 false 5 None in
  let new := mkOtp "a@b.com" "123456" 300000900 false 900 None in
  let db := mkDb [old; new] [] in
  exists j dj r db1,
    verify_otp (Some db) (mkVerifyOtpPayload "a@b.com" "123456") 1000 = (inr r, Some db1)
    /\ otp db !! j = Some dj
    /\ otp_filter "a@b.com" "123456" 1000 dj = true
    /\ (forall k dk, otp db !! k = Some dk ->
          otp_filter "a@b.com" "123456" 1000 dk = true ->
          o_created_at dk <= o_created_at dj)
    /\ otp db1 = <[j := set_used 1000 dj]> (otp db)
    /\ o_used (set_used 1000 dj) = true
    /\ (forall k, k <> j -> otp db1 !! k = otp db !! k).
Proof.
  apply (verify_marks_newest_match
           (mkDb [mkOtp "a@b.com" "123456" 300000000 false 5 None;
                  mkOtp "a@b.com" "123456" 300000900 false 900 None] [])
           (mkVerifyOtpPayload "a@b.com" "123456") 1000 0
           (mkOtp "a@b.com" "123456" 300000000 false 5 None)).
  - reflexivity.
  - vm_compute. reflexivity.
Defined.

Example newest_of_two_matches_run :
  let old := mkOtp "a@b.com" "123456" 300000000 false 5 None in
  let new := mkOtp "a@b.com" "123456" 300000900 false 900 None in
  snd (verify_otp (Some (mkDb [old; new] [])) (mkVerifyOtpPayload "a@b.com" "123456") 1000)
  = Some (mkDb [old; set_used 1000 new]
               [mkUser "a@b.com" None true (Some 1000) None 1000]).
Proof. vm_compute. reflexivity. Qed.

(** C4, as stated, fails: two codes are requested for one email, the
    newer one is verified, and the call with the older code, unexpired and
    unused, then succeeds: no write of [verify_otp] touches a record with
    another code. *)
Lemma older_code_succeeds_after_newer :
  let p := mkRequestOtpPayload "a@b.com" in
  let db1 := snd (request_otp (Some empty_db) p (mkRequestEnv 111111 0 1 2 3)) in
  let db2 := snd (request_otp db1 p (mkRequestEnv 222222 1000000 1000001 1000002 1000003)) in
  let newer := verify_otp db2 (mkVerifyOtpPayload "a@b.com" "222222") 2000000 in
  let older := verify_otp (snd newer) (mkVerifyOtpPayload "a@b.com" "111111") 3000000 in
  let ok := inr (mkVerifyOtpResponse true "demo-token-a@b.com" "a@b.com") in
  fst newer = ok /\ fst older = ok /\ fst older <> inl InvalidOrExpired.
Proof. vm_compute. by split_and!. Qed.

(** C4, amended: for an email with two issued codes that differ, after
    the newer code has been requested and used by a successful
    [verify_otp], a call with the older code made before that code's own
    expiry succeeds: the older code stays usable until its own expiry or
    use. *)
Theorem older_code_still_valid
  (db : Database) (rp1 rp2 : RequestOtpPayload) (env1 env2 : RequestEnv)
  (vnew vold : VerifyOtpPayload) (now3 now4 : datetime) :
  let e := normalize_email (rq_email rp1) in
  let db1 := snd (request_otp_body rp1 env1 db) in
  let db2 := snd (request_otp_body rp2 env2 db1) in
  normalize_email (rq_email rp2) = e ->
  randint env1 <> randint env2 ->
  normalize_email (vp_email vnew) = e ->
  PyStr.strip (vp_code vnew) = PyStr.format_06d (randint env2) ->
  normalize_email (vp_email vold) = e ->
  PyStr.strip (vp_code vold) = PyStr.format_06d (randint env1) ->
  now3 <= clk_now env2 + timedelta_minutes 5 ->
  now4 <= clk_now env1 + timedelta_minutes 5 ->
  exists r3 db3 r4 db4,
    verify_otp (Some db2) vnew now3 = (inr r3, Some db3)
    /\ success r3 = true
    /\ verify_otp (Some db3) vold now4 = (inr r4, Some db4)
    /\ success r4 = true.
Proof.
  intros e db1 db2 He2 Hrand Hen Hcn Heo Hco H3 H4.
  set (rec1 := mkOtp e (PyStr.format_06d (randint env1))
                 (clk_now env1 + timedelta_minutes 5) false (clk_created env1) None).
  set (rec2 := mkOtp e (PyStr.format_06d (randint env2))
                 (clk_now env2 + timedelta_minutes 5) false (clk_created env2) None).
  assert (Hotp2 : otp db2 = (otp db ++ [rec1]) ++ [rec2]).
  { subst db2 db1. rewrite !request_otp_body_unfold. simpl. by rewrite He2. }
  set (i1 := length (otp db)).
  assert (H1 : otp db2 !! i1 = Some rec1).
  { rewrite Hotp2. apply lookup_app_l_Some.
    subst i1. rewrite lookup_app_r by lia. by rewrite Nat.sub_diag. }
  assert (H2 : otp db2 !! S i1 = Some rec2).
  { rewrite Hotp2. rewrite lookup_app_r by (rewrite length_app; simpl; lia).
    rewrite length_app. simpl. subst i1.
    by replace (S (length (otp db)) - (length (otp db) + 1))%nat with 0%nat by lia. }
  assert (Hq2 : otp_filter (normalize_email (vp_email vnew))
                  (PyStr.strip (vp_code vnew)) now3 rec2 = true).
  { apply otp_filter_intro; simpl; congruence || done. }
  destruct (verify_otp_succeeds db2 vnew now3 _ _ H2 Hq2)
    as (j & dj & Hj & Hqj & _ & Hv).
  apply otp_filter_true in Hqj as (_ & Hcj & _ & _).
  assert (Hne : j <> i1).
  { intros ->. rewrite H1 in Hj. injection Hj as <-. simpl in Hcj.
    rewrite Hcn in Hcj. by apply format_06d_inj in Hcj. }
  set (db3 := mkDb (<[j := set_used now3 dj]> (otp db2))
                (upsert_verified (normalize_email (vp_email vnew)) now3 (authuser db2))).
  assert (H1' : otp db3 !! i1 = Some rec1).
  { simpl. by rewrite list_lookup_insert_ne. }
  assert (Hq1 : otp_filter (normalize_email (vp_email vold))
                  (PyStr.strip (vp_code vold)) now4 rec1 = true).
  { apply otp_filter_intro; simpl; congruence || done. }
  destruct (verify_otp_succeeds db3 vold now4 _ _ H1' Hq1)
    as (j' & dj' & _ & _ & _ & Hv').
  eexists _, db3, _, _. split; [exact Hv|]. split; [done|].
  split; [exact Hv'|done].
Qed.

Lemma older_code_still_valid_witness :
  let db2 := snd (request_otp_body (mkRequestOtpPayload "a@b.com")
                    (mkRequestEnv 222222 1000000 1000001 1000002 1000003)
                    (snd (request_otp_body (mkRequestOtpPayload "A@B.com ")
                            (mkRequestEnv 111111 0 1 2 3) empty_db))) in
  exists r3 db3 r4 db4,
    verify_otp (Some db2) (mkVerifyOtpPayload "a@b.com" "222222") 2000000
      = (inr r3, Some db3)
    /\ success r3 = true
    /\ verify_otp (Some db3) (mkVerifyOtpPayload "a@b.com" "111111") 3000000
      = (inr r4, Some db4)
    /\ success r4 = true.
Proof.
  apply (older_code_still_valid empty_db
           (mkRequestOtpPayload "A@B.com ") (mkRequestOtpPayload "a@b.com")
           (mkRequestEnv 111111 0 1 2 3)
           (mkRequestEnv 222222 1000000 1000001 1000002 1000003)
           (mkVerifyOtpPayload "a@b.com" "222222")
           (mkVerifyOtpPayload "a@b.com" "111111") 2000000 3000000).
  - reflexivity.
  - simpl. discriminate.
  - reflexivity.
  - reflexivity.
  - reflexivity.
  - reflexivity.
  - vm_compute. discriminate.
  - vm_compute. discriminate.
Defined.

(** C5: on a configured database [request_otp] succeeds; the code it
    returns is the draw in 0..999999 formatted with [06d]: six characters,
    all decimal digits, whose decimal value is the draw (the padding is
    leading zeros); the call appends one record with that code, the
    normalized email, [used = false] and
    [expires_at = now + 5 minutes], and returns the code with
    [expires_in_seconds = 300]. *)
Theorem request_otp_issues_code
  (db : Database) (rp : RequestOtpPayload) (env : RequestEnv) :
  (randint env <= 999999)%N ->
  exists r db1,
    request_otp (Some db) rp env = (inr r, Some db1)
    /\ dev_otp r = PyStr.format_06d (randint env)
    /\ String.length (dev_otp r) = 6%nat
    /\ PyStr.all_digits (dev_otp r) = true
    /\ PyStr.int (dev_otp r) = randint env
    /\ expires_in_seconds r = 300
    /\ otp db1 = otp db ++
         [mkOtp (normalize_email (rq_email rp)) (dev_otp r)
                (clk_now env + timedelta_minutes 5) false (clk_created env) None]
    /\ timedelta_minutes 5 = 300 * 1000000.
Proof.
  intros Hr. eexists _, _.
  rewrite request_otp_Some, request_otp_body_unfold. simpl.
  split; [reflexivity|]. simpl.
  split_and!; try done.
  - by apply length_format_06d.
  - apply all_digits_format_0d.
  - apply int_format_0d.
Qed.

Lemma request_otp_issues_code_witness :
  exists r db1,
    request_otp (Some empty_db) (mkRequestOtpPayload " Alice@Example.com")
      (mkRequestEnv 42 7000000 7000001 7000002 7000003) = (inr r, Some db1)
    /\ dev_otp r = "000042"%string
    /\ expires_in_seconds r = 300
    /\ otp db1 = [mkOtp "alice@example.com" "000042" 307000000 false 7000001 None].
Proof.
  destruct (request_otp_issues_code empty_db (mkRequestOtpPayload " Alice@Example.com")
              (mkRequestEnv 42 7000000 7000001 7000002 7000003))
    as (r & db1 & Hreq & Hcode & _ & _ & _ & Hsec & Hotp & _).
  - vm_compute. discriminate.
  - exists r, db1. rewrite Hotp, Hcode. by split_and!.
Defined.

(** C6, as stated, fails on the time: the store keeps [last_login] in
    milliseconds, so after a call whose clock reads 1 000 500 microseconds
    the document holds 1 000 000, a time earlier than the reading of the
    call. *)
Lemma last_login_before_clock_reading :
  let db := mkDb [mkOtp "a@b.com" "123456" 300000000 false 0 None] [] in
  let res := verify_otp (Some db) (mkVerifyOtpPayload "a@b.com" "123456") 1000500 in
  fst res = inr (mkVerifyOtpResponse true "demo-token-a@b.com" "a@b.com")
  /\ exists db1 u,
       snd res = Some db1
       /\ find_user "a@b.com" (authuser db1) = Some u
       /\ u_is_verified u = true
       /\ u_last_login u = Some 1000000
       /\ ~ (1000500 <= 1000000).
Proof.
  split; [vm_compute; reflexivity|].
  eexists _, _. split; [vm_compute; reflexivity|].
  split; [vm_compute; reflexivity|]. split; [reflexivity|].
  split; [reflexivity|]. lia.
Qed.

(** C6, amended: after a successful [verify_otp], the [authuser]
    document found for the normalized email exists, has
    [is_verified = true] and has [last_login] set to the clock reading
    [now] of the call truncated to the millisecond, the precision of the
    store: a time not after the reading and less than one millisecond
    before it; when no document was there, the upsert has appended
    one. *)
Theorem verify_marks_user_verified
  (odb odb1 : option Database) (p : VerifyOtpPayload) (now : datetime)
  (r : VerifyOtpResponse) :
  verify_otp odb p now = (inr r, odb1) ->
  let e := normalize_email (vp_email p) in
  exists db db1 u,
    odb = Some db /\ odb1 = Some db1
    /\ find_user e (authuser db1) = Some u
    /\ u_email u = e
    /\ u_is_verified u = true
    /\ u_last_login u = Some (floor_ms now)
    /\ now - 1000 < floor_ms now <= now
    /\ (find_user e (authuser db) = None ->
        authuser db1 = authuser db ++
          [mkUser e None true (Some (floor_ms now)) None (floor_ms now)]).
Proof.
  intros Hv e. destruct odb as [db|]; [|discriminate].
  destruct (verify_otp_cases db p now) as [[_ Hf]|(j & dj & _ & _ & Hs)];
    rewrite Hv in *; [discriminate|].
  injection Hs as -> ->.
  destruct (find_user_upsert_verified e now (authuser db))
    as (u & Hu & Hue & Huv & Hul & _).
  exists db, (mkDb (<[j := set_used now dj]> (otp db))
                (upsert_verified e now (authuser db))), u.
  pose proof (floor_ms_le now). pose proof (floor_ms_gt now).
  split_and!; try done.
  intros Habs. simpl. by apply upsert_verified_absent.
Qed.

Lemma verify_marks_user_verified_witness :
  let odb := Some (mkDb [mkOtp "a@b.com" "123456" 300000000 false 0 None]
                        [mkUser "a@b.com" None false None (Some 2) 3]) in
  exists db db1 u,
    odb = Some db
    /\ snd (verify_otp odb (mkVerifyOtpPayload "a@b.com" "123456") 1000500) = Some db1
    /\ find_user "a@b.com" (authuser db1) = Some u
    /\ u_is_verified u = true
    /\ u_last_login u = Some 1000000.
Proof.
  destruct (verify_marks_user_verified
              (Some (mkDb [mkOtp "a@b.com" "123456" 300000000 false 0 None]
                          [mkUser "a@b.com" None false None (Some 2) 3]))
              (snd (verify_otp
                      (Some (mkDb [mkOtp "a@b.com" "123456" 300000000 false 0 None]
                                  [mkUser "a@b.com" None false None (Some 2) 3]))
                      (mkVerifyOtpPayload "a@b.com" "123456") 1000500))
              (mkVerifyOtpPayload "a@b.com" "123456") 1000500
              (mkVerifyOtpResponse true "demo-token-a@b.com" "a@b.com"))
    as (db & db1 & u & H1 & H2 & H3 & _ & H4 & H5 & _).
  - vm_compute. reflexivity.
  - exists db, db1, u. by split_and!.
Defined.

(** C7: both handlers normalize the email with [lower] then [strip], and
    [verify_otp] strips the code.  For two emails with the same
    normalized form, [request_otp] with the first stores the normalized
    email; [verify_otp] with the second, the code wrapped in whitespace,
    returns on every database what it returns with the normalized email
    and the bare code; and after [request_otp] with the first, such a call
    made before expiry succeeds. *)
Theorem normalized_emails_interchangeable
  (e1 e2 : string) (w1 w2 : string) :
  normalize_email e1 = normalize_email e2 ->
  PyStr.all_space w1 = true -> PyStr.all_space w2 = true ->
  normalize_email e1 = PyStr.strip (PyStr.lower e1)
  /\ (forall odb c now,
        verify_otp odb (mkVerifyOtpPayload e2 (w1 +:+ c +:+ w2)) now
        = verify_otp odb (mkVerifyOtpPayload (normalize_email e1) c) now)
  /\ (forall db env now,
        let req := request_otp (Some db) (mkRequestOtpPayload e1) env in
        now <= clk_now env + timedelta_minutes 5 ->
        exists r db1 rv db2,
          req = (inr r, Some db1)
          /\ otp db1 !! length (otp db)
             = Some (mkOtp (normalize_email e1) (dev_otp r)
                       (clk_now env + timedelta_minutes 5) false (clk_created env) None)
          /\ verify_otp (Some db1) (mkVerifyOtpPayload e2 (w1 +:+ dev_otp r +:+ w2)) now
             = (inr rv, Some db2)
          /\ success rv = true /\ email rv = normalize_email e1).
Proof.
  intros He H1 H2.
  assert (Hsame : forall odb c now,
    verify_otp odb (mkVerifyOtpPayload e2 (w1 +:+ c +:+ w2)) now
    = verify_otp odb (mkVerifyOtpPayload (normalize_email e1) c) now).
  { intros [db|] c now; [|done].
    unfold verify_otp, with_db. rewrite !verify_otp_body_unfold. simpl.
    by rewrite normalize_email_idem, <- He, strip_padded. }
  split; [done|]. split; [exact Hsame|].
  intros db env now req Hnow. subst req.
  rewrite request_otp_Some, request_otp_body_unfold. simpl.
  set (rec := mkOtp (normalize_email e1) (PyStr.format_06d (randint env))
                (clk_now env + timedelta_minutes 5) false (clk_created env) None).
  set (db1 := mkDb (otp db ++ [rec]) _).
  assert (Hrec : otp db1 !! length (otp db) = Some rec).
  { simpl. rewrite lookup_app_r by lia. by rewrite Nat.sub_diag. }
  set (p := mkVerifyOtpPayload e2 (w1 +:+ PyStr.format_06d (randint env) +:+ w2)).
  assert (Hq : otp_filter (normalize_email (vp_email p))
                 (PyStr.strip (vp_code p)) now rec = true).
  { apply otp_filter_intro; simpl; try done.
    by rewrite strip_padded, strip_format_06d. }
  destruct (verify_otp_succeeds db1 p now _ _ Hrec Hq) as (j & dj & _ & _ & _ & Hv).
  eexists _, db1, _, _. split; [reflexivity|]. split; [exact Hrec|].
  split; [exact Hv|]. simpl. by rewrite He.
Qed.

Lemma normalized_emails_interchangeable_witness :
  let req := request_otp (Some empty_db) (mkRequestOtpPayload "Alice@Example.com ")
               (mkRequestEnv 42 0 1 2 3) in
  exists r db1 rv db2,
    req = (inr r, Some db1)
    /\ verify_otp (Some db1)
         (mkVerifyOtpPayload "  ALICE@example.COM" (" " +:+ dev_otp r +:+ "  ")) 1000
       = (inr rv, Some db2)
    /\ success rv = true /\ email rv = "alice@example.com"%string.
Proof.
  destruct (normalized_emails_interchangeable
              "Alice@Example.com " "  ALICE@example.COM" " " "  ")
    as (_ & _ & H); [reflexivity..|].
  destruct (H empty_db (mkRequestEnv 42 0 1 2 3) 1000)
    as (r & db1 & rv & db2 & Hr & _ & Hv & Hs & He).
  - vm_compute. discriminate.
  - exists r, db1, rv, db2. by split_and!.
Defined.

(** ** Runs *)

Section RunFacts.

(** One call on a configured database: what it does to the records. *)
Lemma step_records (db : Database) (op : Op) :
  exists db1,
    step (Some db) op = Some db1
    /\ (forall i d, otp db !! i = Some d ->
          exists d1, otp db1 !! i = Some d1
            /\ (d1 = d
                \/ (o_used d = false
                    /\ exists p now, op = VerifyOTP p now /\ d1 = set_used now d)))
    /\ (forall i d1, otp db !! i = None -> otp db1 !! i = Some d1 ->
          o_used d1 = false /\ exists p env, op = RequestOTP p env).
Proof.
  destruct op as [p env|p now]; cbn [step].
  - rewrite request_otp_Some, request_otp_body_unfold. simpl.
    eexists. split; [reflexivity|]. simpl. split.
    + intros i d Hi. exists d. split; [by apply lookup_app_l_Some|by left].
    + intros i d1 Hnone Hi.
      apply lookup_app_Some in Hi as [Hi|[_ Hi]]; [congruence|].
      apply list_lookup_singleton_Some in Hi as [_ <-]. simpl. eauto.
  - destruct (verify_otp_cases db p now) as [[_ ->]|(j & dj & Hj & Hq & ->)]; simpl.
    + exists db. split; [done|]. split; [|congruence].
      intros i d Hi. exists d. auto.
    + eexists. split; [reflexivity|]. simpl.
      apply otp_filter_true in Hq as (_ & _ & Hunused & _).
      pose proof (lookup_lt_Some _ _ _ Hj) as Hlen.
      split.
      * intros i d Hi. destruct (decide (j = i)) as [<-|Hne].
        -- exists (set_used now dj). rewrite list_lookup_insert_eq by done.
           split; [done|]. right. assert (d = dj) as -> by congruence. eauto.
        -- exists d. rewrite list_lookup_insert_ne by done. auto.
      * intros i d1 Hnone Hi. destruct (decide (j = i)) as [<-|Hne]; [congruence|].
        rewrite list_lookup_insert_ne in Hi by done. congruence.
Qed.

Lemma run_cons odb op ops : run odb (op :: ops) = run (step odb op) ops.
Proof. done. Qed.

(** Along a run a record keeps its place, its email, its code and its
    dates, and a used record is kept as it is. *)
Lemma run_records (ops : list Op) (db : Database) :
  exists db', run (Some db) ops = Some db'
    /\ forall i d, otp db !! i = Some d ->
         exists d', otp db' !! i = Some d'
           /\ o_email d' = o_email d /\ o_code d' = o_code d
           /\ o_expires_at d' = o_expires_at d
           /\ o_created_at d' = o_created_at d
           /\ (o_used d = true -> d' = d).
Proof.
  revert db. induction ops as [|op ops IH]; intros db.
  - exists db. split; [done|]. intros i d Hi. exists d. by split_and!.
  - destruct (step_records db op) as (db1 & Hstep & Hold & _).
    destruct (IH db1) as (db' & Hrun & Hkeep).
    exists db'. rewrite run_cons, Hstep. split; [done|].
    intros i d Hi. destruct (Hold i d Hi) as (d1 & Hi1 & Hd1).
    destruct (Hkeep i d1 Hi1) as (d' & Hi' & He & Hc & Hx & Hcr & Hd').
    exists d'. split; [done|].
    destruct Hd1 as [->|(Hf & p & now & _ & ->)]; [done|].
    simpl in *. split_and!; try done. congruence.
Qed.

End RunFacts.




(** C8: in every sequence of RequestOTP and VerifyOTP calls the field
    [used] of a record only goes from false to true, once.  A call leaves
    a stored record as it is or, when the call is a VerifyOTP and the
    record is unused, sets [used] (and [updated_at]); a record that
    appears is one that RequestOTP creates, with [used = false]; and
    along any run a record that is used stays in place unchanged. *)
Theorem used_set_at_most_once (db : Database) :
  (forall op, exists db1,
     step (Some db) op = Some db1
     /\ (forall i d, otp db !! i = Some d ->
           exists d1, otp db1 !! i = Some d1
             /\ (d1 = d
                 \/ (o_used d = false
                     /\ exists p now, op = VerifyOTP p now /\ d1 = set_used now d)))
     /\ (forall i d1, otp db !! i = None -> otp db1 !! i = Some d1 ->
           o_used d1 = false /\ exists p env, op = RequestOTP p env))
  /\ (forall ops, exists db',
        run (Some db) ops = Some db'
        /\ forall i d, otp db !! i = Some d ->
             exists d', otp db' !! i = Some d'
               /\ (o_used d = true -> d' = d /\ o_used d' = true)).
Proof.
  split.
  - intros op. apply step_records.
  - intros ops. destruct (run_records ops db) as (db' & Hrun & Hkeep).
    exists db'. split; [done|]. intros i d Hi.
    destruct (Hkeep i d Hi) as (d' & Hi' & _ & _ & _ & _ & Hd').
    exists d'. split; [done|].
    intros Hu. specialize (Hd' Hu). by subst d'.
Qed.

Example run_used_flags_example :
  let p := mkRequestOtpPayload "a@b.com" in
  let v := mkVerifyOtpPayload "a@b.com" "123456" in
  (fun odb => match odb with Some db => map o_used (otp db) | None => [] end)
    (run (Some empty_db)
       [RequestOTP p (mkRequestEnv 123456 0 1 2 3); VerifyOTP v 1000;
        VerifyOTP v 2000; RequestOTP p (mkRequestEnv 123456 5000 5001 5002 5003);
        VerifyOTP v 6000; VerifyOTP v 7000])
  = [true; true].
Proof. vm_compute. reflexivity. Qed.

(** C9: the token of a successful [verify_otp] is the prefix
    ["demo-token-"] followed by the normalized email, so it depends on the
    email alone: two successful calls, on any databases and at any times,
    whose emails have the same normalized form return the same token. *)
Theorem token_is_prefix_and_email
  (odb1 odb1' odb2 odb2' : option Database) (p1 p2 : VerifyOtpPayload)
  (now1 now2 : datetime) (r1 r2 : VerifyOtpResponse) :
  verify_otp odb1 p1 now1 = (inr r1, odb1') ->
  verify_otp odb2 p2 now2 = (inr r2, odb2') ->
  token r1 = ("demo-token-" +:+ normalize_email (vp_email p1))%string
  /\ email r1 = normalize_email (vp_email p1)
  /\ (normalize_email (vp_email p1) = normalize_email (vp_email p2) ->
      token r1 = token r2).
Proof.
  assert (Htok : forall odb odb' p now r,
    verify_otp odb p now = (inr r, odb') ->
    r = mkVerifyOtpResponse true ("demo-token-" +:+ normalize_email (vp_email p))
          (normalize_email (vp_email p))).
  { intros [db|] odb' p now r Hv; [|discriminate].
    destruct (verify_otp_cases db p now) as [[_ Hf]|(j & dj & _ & _ & Hs)];
      rewrite Hv in *; [discriminate|]. by injection Hs as -> _. }
  intros H1 H2. apply Htok in H1, H2. subst r1 r2. simpl.
  split; [done|]. split; [done|]. by intros ->.
Qed.

Lemma token_is_prefix_and_email_witness :
  let db := Some (mkDb [mkOtp "a@b.com" "123456" 300000000 false 0 None] []) in
  let db' := Some (mkDb [mkOtp "a@b.com" "654321" 900000000 false 7 None] []) in
  let r1 := fst (verify_otp db (mkVerifyOtpPayload "a@b.com" "123456") 1000) in
  let r2 := fst (verify_otp db' (mkVerifyOtpPayload " A@B.COM " "654321") 5000) in
  exists t1 t2,
    r1 = inr t1 /\ r2 = inr t2
    /\ token t1 = "demo-token-a@b.com"%string
    /\ token t1 = token t2.
Proof.
  exists (mkVerifyOtpResponse true "demo-token-a@b.com" "a@b.com"),
         (mkVerifyOtpResponse true "demo-token-a@b.com" "a@b.com").
  destruct (token_is_prefix_and_email
           (Some (mkDb [mkOtp "a@b.com" "123456" 300000000 false 0 None] []))
           (snd (verify_otp
                   (Some (mkDb [mkOtp "a@b.com" "123456" 300000000 false 0 None] []))
                   (mkVerifyOtpPayload "a@b.com" "123456") 1000))
           (Some (mkDb [mkOtp "a@b.com" "654321" 900000000 false 7 None] []))
           (snd (verify_otp
                   (Some (mkDb [mkOtp "a@b.com" "654321" 900000000 false 7 None] []))
                   (mkVerifyOtpPayload " A@B.COM " "654321") 5000))
           (mkVerifyOtpPayload "a@b.com" "123456")
           (mkVerifyOtpPayload " A@B.COM " "654321") 1000 5000
           (mkVerifyOtpResponse true "demo-token-a@b.com" "a@b.com")
           (mkVerifyOtpResponse true "demo-token-a@b.com" "a@b.com"))
    as (Ht & _ & Hsame).
  - vm_compute. reflexivity.
  - vm_compute. reflexivity.
  - split; [reflexivity|]. split; [reflexivity|]. split; [exact Ht|].
    apply Hsame. reflexivity.
Defined.

(** C10: a [verify_otp] call that fails writes nothing.  It fails with
    status 500 exactly when no database is configured, and otherwise with
    InvalidOrExpired (status 400) when no record passes the filter; in
    both cases the database it leaves is the one it was given, every
    [otp] and [authuser] document included. *)
Theorem verify_failure_writes_nothing
  (odb odb' : option Database) (p : VerifyOtpPayload) (now : datetime)
  (err : HTTPException) :
  verify_otp odb p now = (inl err, odb') ->
  odb' = odb
  /\ ((odb = None /\ err = StorageUnavailable /\ status_code err = 500)
      \/ (exists db, odb = Some db
            /\ err = InvalidOrExpired /\ status_code err = 400
            /\ forall k d, otp db !! k = Some d ->
                 otp_filter (normalize_email (vp_email p))
                   (PyStr.strip (vp_code p)) now d = false)).
Proof.
  intros Hv. destruct odb as [db|].
  - destruct (verify_otp_cases db p now) as [[Hnone Hf]|(j & dj & _ & _ & Hs)];
      rewrite Hv in *; [|discriminate].
    injection Hf as -> ->. split; [done|]. right. exists db. by split_and!.
  - injection Hv as <- <-. split; [done|]. left. by split_and!.
Qed.

Lemma verify_failure_writes_nothing_witness :
  let odb := Some (mkDb [mkOtp "a@b.com" "123456" 300000000 true 0 (Some 5)]
                        [mkUser "a@b.com" None true (Some 5) (Some 2) 5]) in
  snd (verify_otp odb (mkVerifyOtpPayload "a@b.com" "123456") 1000) = odb
  /\ snd (verify_otp None (mkVerifyOtpPayload "a@b.com" "123456") 1000) = None.
Proof.
  split.
  - apply (verify_failure_writes_nothing
             (Some (mkDb [mkOtp "a@b.com" "123456" 300000000 true 0 (Some 5)]
                         [mkUser "a@b.com" None true (Some 5) (Some 2) 5]))
             _ (mkVerifyOtpPayload "a@b.com" "123456") 1000 InvalidOrExpired).
    vm_compute. reflexivity.
  - apply (verify_failure_writes_nothing None _
             (mkVerifyOtpPayload "a@b.com" "123456") 1000 StorageUnavailable).
    vm_compute. reflexivity.
Defined.

(** * Further properties of the handlers *)

Section UserFacts.
Implicit Types (l : list UserDoc) (e : string).

Lemma find_user_None e l : find_user e l = None <-> e ∉ map u_email l.
Proof.
  induction l as [|u l IH]; simpl.
  - split; [intros _ H; by apply elem_of_nil in H|done].
  - destruct (String.eqb_spec (u_email u) e) as [->|Hne].
    + split; [done|]. intros H. exfalso. apply H. apply elem_of_cons. by left.
    + rewrite IH. rewrite elem_of_cons. split; [|tauto].
      intros H [Heq|Hin]; [congruence|done].
Qed.

Lemma find_user_Some_email e l u : find_user e l = Some u -> u_email u = e.
Proof.
  induction l as [|u0 l IH]; simpl; [done|].
  destruct (String.eqb_spec (u_email u0) e) as [He|Hne]; [|done].
  by intros [= <-].
Qed.

Lemma find_user_app_Some e l l' u :
  find_user e l = Some u -> find_user e (l ++ l') = Some u.
Proof.
  induction l as [|u0 l IH]; simpl; [done|].
  by destruct (String.eqb (u_email u0) e).
Qed.

Lemma find_user_app_None e l l' :
  find_user e l = None -> find_user e (l ++ l') = find_user e l'.
Proof.
  induction l as [|u0 l IH]; simpl; [done|].
  by destruct (String.eqb (u_email u0) e).
Qed.

Lemma find_user_upsert_same e now l u :
  find_user e l = Some u ->
  find_user e (upsert_verified e now l) = Some (set_verified now u).
Proof.
  induction l as [|u0 l IH]; simpl; [done|].
  destruct (String.eqb (u_email u0) e) eqn:E; simpl.
  - intros [= <-]. by rewrite E.
  - by rewrite E.
Qed.

Lemma find_user_upsert_other e e' now l :
  e' <> e -> find_user e' (upsert_verified e now l) = find_user e' l.
Proof.
  intros Hne. induction l as [|u0 l IH]; simpl.
  - by destruct (String.eqb_spec e e').
  - destruct (String.eqb_spec (u_email u0) e) as [He|He]; simpl.
    + destruct (String.eqb_spec (u_email u0) e'); [congruence|done].
    + by rewrite IH.
Qed.

Lemma emails_upsert_verified e now l :
  map u_email (upsert_verified e now l)
  = match find_user e l with
    | Some _ => map u_email l
    | None => map u_email l ++ [e]
    end.
Proof.
  induction l as [|u0 l IH]; simpl; [done|].
  destruct (String.eqb (u_email u0) e) eqn:E; simpl; [done|].
  rewrite IH. by destruct (find_user e l).
Qed.

Lemma NoDup_snoc_fresh (xs : list string) x : NoDup xs -> x ∉ xs -> NoDup (xs ++ [x]).
Proof.
  intros Hnd Hx. apply NoDup_app. split; [done|]. split.
  - intros y Hy Hy'. apply list_elem_of_singleton in Hy'. by subst.
  - apply NoDup_singleton.
Qed.

End UserFacts.

Section CountFacts.
Implicit Types (l : list OtpDoc).

Lemma count_unused_snoc l d :
  count_unused (l ++ [d]) = (count_unused l + if o_used d then 0 else 1)%nat.
Proof.
  unfold count_unused. rewrite List.filter_app, length_app. simpl.
  by destruct (o_used d).
Qed.

Lemma count_unused_mark l j d now :
  l !! j = Some d -> o_used d = false ->
  S (count_unused (<[j := set_used now d]> l)) = count_unused l.
Proof.
  unfold count_unused. revert j. induction l as [|d0 l IH]; intros j Hj Hu; [done|].
  destruct j as [|j]; simpl in *.
  - injection Hj as ->. by rewrite Hu.
  - destruct (o_used d0); simpl; [by apply IH|]. f_equal. by apply IH.
Qed.

End CountFacts.

(** ** request_otp *)

(** X1: [request_otp] makes sure a user document exists for the
    normalized email without touching the ones stored.  When a document
    for the email exists, the collection [authuser] is unchanged (a
    verified user stays verified); when none exists, one document is
    appended, unverified, without [last_login], with the two clock
    readings as [created_at] and [updated_at].  The documents found for
    the other emails are the same as before. *)
Theorem request_otp_ensures_user
  (db : Database) (rp : RequestOtpPayload) (env : RequestEnv) :
  let e := normalize_email (rq_email rp) in
  exists r db1,
    request_otp (Some db) rp env = (inr r, Some db1)
    /\ match find_user e (authuser db) with
       | Some u => authuser db1 = authuser db /\ find_user e (authuser db1) = Some u
       | None =>
           let u := mkUser e None false None (Some (clk_user_created env))
                      (clk_user_updated env) in
           authuser db1 = authuser db ++ [u] /\ find_user e (authuser db1) = Some u
       end
    /\ (forall e', e' <> e ->
          find_user e' (authuser db1) = find_user e' (authuser db)).
Proof.
  intros e. rewrite request_otp_Some, request_otp_body_unfold. simpl. fold e.
  eexists _, _. split; [reflexivity|]. simpl.
  destruct (find_user e (authuser db)) as [u|] eqn:Hf.
  - split; [done|]. done.
  - split.
    + split; [done|]. rewrite find_user_app_None by done. simpl.
      by rewrite String.eqb_refl.
    + intros e' Hne. destruct (find_user e' (authuser db)) as [u'|] eqn:Hf'.
      * by apply find_user_app_Some.
      * rewrite find_user_app_None by done. simpl.
        by destruct (String.eqb_spec e e'); [congruence|].
Qed.

(** ** verify_otp *)

(** X2: [verify_otp] succeeds exactly when the database is configured
    and holds a record with the normalized email and the stripped code of
    the call that is unused and whose [expires_at] is not before [now] as
    the store reads it, truncated to the millisecond: a wrong code,
    another email, a used record and a record expired by a millisecond or
    more all fail alike, and a record not expired at the reading of the
    clock is accepted. *)
Theorem verify_otp_succeeds_iff
  (odb : option Database) (p : VerifyOtpPayload) (now : datetime) :
  ((exists r odb', verify_otp odb p now = (inr r, odb'))
   <-> (exists db i d,
          odb = Some db /\ otp db !! i = Some d
          /\ o_email d = normalize_email (vp_email p)
          /\ o_code d = PyStr.strip (vp_code p)
          /\ o_used d = false
          /\ floor_ms now <= o_expires_at d))
  /\ (forall t, now <= t -> floor_ms now <= t)
  /\ (forall t, t + 1000 <= now -> ~ floor_ms now <= t).
Proof.
  split; [split|].
  - intros (r & odb' & Hv). destruct odb as [db|]; [|discriminate].
    destruct (verify_otp_cases db p now) as [[_ Hf]|(j & dj & Hj & Hq & _)];
      [rewrite Hv in Hf; discriminate|].
    apply otp_filter_true in Hq as (? & ? & ? & ?).
    exists db, j, dj. by split_and!.
  - intros (db & i & d & -> & Hi & He & Hc & Hu & Ht).
    assert (Hq : otp_filter (normalize_email (vp_email p))
                   (PyStr.strip (vp_code p)) now d = true)
      by by apply otp_filter_true.
    destruct (verify_otp_succeeds db p now i d Hi Hq) as (j & dj & _ & _ & _ & Hv).
    eauto.
  - pose proof (floor_ms_le now). pose proof (floor_ms_gt now).
    split; intros t Ht; lia.
Qed.

(** X3: a successful [verify_otp] touches nothing of the others: every
    record with another email or another code is left as it is, no record
    is added or removed, and the user documents found for the other
    emails are the same as before. *)
Theorem verify_otp_leaves_others
  (db db1 : Database) (p : VerifyOtpPayload) (now : datetime)
  (r : VerifyOtpResponse) :
  verify_otp (Some db) p now = (inr r, Some db1) ->
  let e := normalize_email (vp_email p) in
  let c := PyStr.strip (vp_code p) in
  length (otp db1) = length (otp db)
  /\ (forall k d, otp db !! k = Some d -> o_email d <> e \/ o_code d <> c ->
        otp db1 !! k = Some d)
  /\ (forall e', e' <> e ->
        find_user e' (authuser db1) = find_user e' (authuser db))
  /\ (length (authuser db) <= length (authuser db1) <= S (length (authuser db)))%nat.
Proof.
  intros Hv e c.
  destruct (verify_otp_cases db p now) as [[_ Hf]|(j & dj & Hj & Hq & Hs)];
    rewrite Hv in *; [discriminate|].
  injection Hs as -> ->. simpl. fold e.
  apply otp_filter_true in Hq as (He & Hc & _ & _).
  split; [by rewrite length_insert|]. split; [|split].
  - intros k d Hk Hor. rewrite list_lookup_insert_ne; [done|].
    intros ->. assert (d = dj) as -> by congruence. fold e c in He, Hc. tauto.
  - intros e' Hne. by apply find_user_upsert_other.
  - pose proof (emails_upsert_verified e now (authuser db)) as Hm.
    apply (f_equal length) in Hm. rewrite length_map in Hm. rewrite Hm.
    destruct (find_user e (authuser db)).
    + rewrite length_map. lia.
    + rewrite length_app, length_map. simpl. lia.
Qed.

Lemma verify_otp_leaves_others_witness :
  let other := mkOtp "c@d.com" "123456" 300000000 false 0 None in
  let mine := mkOtp "a@b.com" "123456" 300000000 false 1 None in
  let db := mkDb [other; mine] [mkUser "c@d.com" None false None (Some 0) 0] in
  exists db1,
    snd (verify_otp (Some db) (mkVerifyOtpPayload "a@b.com" "123456") 1000) = Some db1
    /\ otp db1 !! 0%nat = Some other
    /\ find_user "c@d.com" (authuser db1) = find_user "c@d.com" (authuser db).
Proof.
  eexists. split; [vm_compute; reflexivity|].
  destruct (verify_otp_leaves_others
              (mkDb [mkOtp "c@d.com" "123456" 300000000 false 0 None;
                     mkOtp "a@b.com" "123456" 300000000 false 1 None]
                    [mkUser "c@d.com" None false None (Some 0) 0])
              _ (mkVerifyOtpPayload "a@b.com" "123456") 1000 _
              ltac:(vm_compute; reflexivity))
    as (_ & Hrec & Husr & _).
  split.
  - apply (Hrec 0%nat); [reflexivity|]. left. vm_compute. discriminate.
  - apply Husr. vm_compute. discriminate.
Defined.

(** X4: a guess that fails costs nothing: after any number of
    [verify_otp] calls that no record matches, the database is the one
    before them, and a call that a record matched before them still
    succeeds.  The handler counts no attempts and locks nothing. *)
Theorem failed_guesses_change_nothing
  (db : Database) (guesses : list (VerifyOtpPayload * datetime))
  (p : VerifyOtpPayload) (now : datetime) (i : nat) (d : OtpDoc) :
  Forall (fun g => forall k dk, otp db !! k = Some dk ->
            otp_filter (normalize_email (vp_email g.1))
              (PyStr.strip (vp_code g.1)) g.2 dk = false) guesses ->
  otp db !! i = Some d ->
  otp_filter (normalize_email (vp_email p)) (PyStr.strip (vp_code p)) now d = true ->
  let ops := map (fun g => VerifyOTP g.1 g.2) guesses in
  run (Some db) ops = Some db
  /\ count_verified (Some db) ops = 0%nat
  /\ exists r db1, verify_otp (run (Some db) ops) p now = (inr r, Some db1).
Proof.
  intros Hg Hi Hq ops.
  assert (Hrun : run (Some db) ops = Some db /\ count_verified (Some db) ops = 0%nat).
  { subst ops. induction Hg as [|g gs Hhd _ IH]; [done|].
    cbn [map count_verified verified]. rewrite run_cons. cbn [step].
    rewrite (verify_otp_fails db g.1 g.2 Hhd). cbn [fst snd].
    destruct IH as [-> ->]. done. }
  destruct Hrun as [Hrun Hcount]. split; [done|]. split; [done|].
  rewrite Hrun.
  destruct (verify_otp_succeeds db p now i d Hi Hq) as (j & dj & _ & _ & _ & Hv).
  eauto.
Qed.

Lemma failed_guesses_change_nothing_witness :
  let db := mkDb [mkOtp "a@b.com" "123456" 300000000 false 0 None] [] in
  let ops := [VerifyOTP (mkVerifyOtpPayload "a@b.com" "000000") 10;
              VerifyOTP (mkVerifyOtpPayload "a@b.com" "999999") 20] in
  run (Some db) ops = Some db
  /\ count_verified (Some db) ops = 0%nat
  /\ exists r db1,
       verify_otp (run (Some db) ops) (mkVerifyOtpPayload "a@b.com" "123456") 30
       = (inr r, Some db1).
Proof.
  apply (failed_guesses_change_nothing
           (mkDb [mkOtp "a@b.com" "123456" 300000000 false 0 None] [])
           [(mkVerifyOtpPayload "a@b.com" "000000", 10);
            (mkVerifyOtpPayload "a@b.com" "999999", 20)]
           (mkVerifyOtpPayload "a@b.com" "123456") 30 0
           (mkOtp "a@b.com" "123456" 300000000 false 0 None)).
  - constructor; [|constructor; [|constructor]];
      (intros [|k] dk Hk; simpl in Hk;
       [injection Hk as <-; vm_compute; reflexivity|destruct k; discriminate]).
  - reflexivity.
  - vm_compute. reflexivity.
Defined.

(** ** Invariants of runs *)

Section RunInvariants.

(** What one call does to a configured database. *)
Lemma step_cases (db : Database) (op : Op) :
  match op with
  | RequestOTP rp env =>
      step (Some db) op = Some (snd (request_otp_body rp env db))
      /\ verified (Some db) op = false
  | VerifyOTP p now =>
      let e := normalize_email (vp_email p) in
      let q := otp_filter e (PyStr.strip (vp_code p)) now in
      (step (Some db) op = Some db /\ verified (Some db) op = false)
      \/ (exists j dj, otp db !! j = Some dj /\ q dj = true
            /\ step (Some db) op =
                 Some (mkDb (<[j := set_used now dj]> (otp db))
                            (upsert_verified e now (authuser db)))
            /\ verified (Some db) op = true)
  end.
Proof.
  destruct op as [rp env|p now]; cbn [step verified].
  - by rewrite request_otp_Some.
  - destruct (verify_otp_cases db p now) as [[_ ->]|(j & dj & Hj & Hq & ->)];
      [by left|]. right. exists j, dj. by split_and!.
Qed.

(** A property of the database that every call allowed by [P] keeps
    holds at the end of every run of such calls. *)
Lemma run_invariant (I : Database -> Prop) (P : Op -> Prop) :
  (forall db op db1, P op -> I db -> step (Some db) op = Some db1 -> I db1) ->
  forall ops db, Forall P ops -> I db ->
    exists db', run (Some db) ops = Some db' /\ I db'.
Proof.
  intros Hstep ops. induction ops as [|op ops IH]; intros db HP HI.
  - by exists db.
  - apply Forall_cons in HP as [Hop HP].
    destruct (step_records db op) as (db1 & Hs & _).
    rewrite run_cons, Hs. apply IH; [done|]. by eapply Hstep.
Qed.

End RunInvariants.

(** X5: codes are spent one by one.  Along every run, the number of
    successful VerifyOTP calls plus the number of unused records at the
    end equals the number of unused records at the start plus the number
    of RequestOTP calls; so there are never more successful verifications
    than codes issued or still unused at the start. *)
Theorem verifications_bounded_by_requests (db : Database) (ops : list Op) :
  exists db',
    run (Some db) ops = Some db'
    /\ (count_verified (Some db) ops + count_unused (otp db')
        = count_unused (otp db) + count_requests ops)%nat
    /\ (count_verified (Some db) ops
        <= count_unused (otp db) + count_requests ops)%nat.
Proof.
  assert (H : exists db', run (Some db) ops = Some db'
    /\ (count_verified (Some db) ops + count_unused (otp db')
        = count_unused (otp db) + count_requests ops)%nat).
  { revert db. induction ops as [|op ops IH]; intros db.
    - exists db. split; [done|]. unfold count_requests. simpl. lia.
    - rewrite run_cons. cbn [count_verified].
      pose proof (step_cases db op) as Hc. destruct op as [rp env|p now].
      + destruct Hc as [Hs Hv]. rewrite Hs, Hv.
        destruct (IH (snd (request_otp_body rp env db))) as (db' & Hrun & Heq).
        exists db'. split; [done|].
        assert (Hu : count_unused (otp (snd (request_otp_body rp env db)))
                     = S (count_unused (otp db))).
        { rewrite request_otp_body_unfold. simpl.
          rewrite count_unused_snoc. simpl. lia. }
        unfold count_requests in *. simpl. lia.
      + destruct Hc as [[Hs Hv]|(j & dj & Hj & Hq & Hs & Hv)]; rewrite Hs, Hv.
        * destruct (IH db) as (db' & Hrun & Heq). exists db'. split; [done|].
          unfold count_requests in *. simpl. lia.
        * apply otp_filter_true in Hq as (_ & _ & Hu & _).
          destruct (IH (mkDb (<[j := set_used now dj]> (otp db))
                          (upsert_verified (normalize_email (vp_email p)) now
                             (authuser db)))) as (db' & Hrun & Heq).
          exists db'. split; [done|]. cbn [otp] in Heq.
          pose proof (count_unused_mark (otp db) j dj now Hj Hu).
          unfold count_requests in *. simpl. lia. }
  destruct H as (db' & Hrun & Heq). exists db'. split; [done|]. split; [done|]. lia.
Qed.



(** X7: calls made one after the other never duplicate a user: when the
    emails of the collection [authuser] are pairwise distinct at the
    start of a run, they are pairwise distinct at its end. *)
Theorem user_emails_stay_unique (db : Database) (ops : list Op) :
  NoDup (map u_email (authuser db)) ->
  exists db',
    run (Some db) ops = Some db' /\ NoDup (map u_email (authuser db')).
Proof.
  intros H0.
  apply (run_invariant (fun db => NoDup (map u_email (authuser db))) (fun _ => True));
    [|by apply Forall_true|done].
  clear. intros db op db1 _ HI Hs.
  pose proof (step_cases db op) as Hc. destruct op as [rp env|p now].
  - destruct Hc as [Hs' _]. rewrite Hs' in Hs. injection Hs as <-.
    rewrite request_otp_body_unfold. simpl.
    destruct (find_user _ (authuser db)) eqn:Hf; [done|].
    rewrite map_app. simpl. apply NoDup_snoc_fresh; [done|].
    by apply find_user_None.
  - destruct Hc as [[Hs' _]|(j & dj & _ & _ & Hs' & _)];
      rewrite Hs' in Hs; injection Hs as <-; [done|].
    simpl. rewrite emails_upsert_verified.
    destruct (find_user _ (authuser db)) eqn:Hf; [done|].
    apply NoDup_snoc_fresh; [done|]. by apply find_user_None.
Qed.

Lemma user_emails_stay_unique_witness :
  let ops := [RequestOTP (mkRequestOtpPayload "a@b.com") (mkRequestEnv 123456 0 1 2 3);
              RequestOTP (mkRequestOtpPayload " A@B.com") (mkRequestEnv 7 10 11 12 13);
              VerifyOTP (mkVerifyOtpPayload "a@b.com" "123456") 1000] in
  exists db',
    run (Some empty_db) ops = Some db' /\ NoDup (map u_email (authuser db')).
Proof.
  apply (user_emails_stay_unique empty_db
           [RequestOTP (mkRequestOtpPayload "a@b.com") (mkRequestEnv 123456 0 1 2 3);
            RequestOTP (mkRequestOtpPayload " A@B.com") (mkRequestEnv 7 10 11 12 13);
            VerifyOTP (mkVerifyOtpPayload "a@b.com" "123456") 1000]).
  simpl. apply NoDup_nil_2.
Defined.

(** X8: a user is never removed and never loses its verification: along
    every run, the document found for an email that had one is still
    found, with the same [created_at] and [display_name], and it is
    verified when it was before. *)
Theorem verified_user_stays_verified
  (db : Database) (ops : list Op) (e : string) (u : UserDoc) :
  find_user e (authuser db) = Some u ->
  exists db' u',
    run (Some db) ops = Some db'
    /\ find_user e (authuser db') = Some u'
    /\ u_created_at u' = u_created_at u
    /\ u_display_name u' = u_display_name u
    /\ (u_is_verified u = true -> u_is_verified u' = true).
Proof.
  intros H0.
  destruct (run_invariant
              (fun db => exists u', find_user e (authuser db) = Some u'
                 /\ u_created_at u' = u_created_at u
                 /\ u_display_name u' = u_display_name u
                 /\ (u_is_verified u = true -> u_is_verified u' = true))
              (fun _ => True)) with (ops := ops) (db := db)
    as (db' & Hrun & u' & HI); [|by apply Forall_true|by exists u|by exists db', u'].
  clear. intros db op db1 _ (u' & Hf & Hc & Hd & Hv) Hs.
  pose proof (step_cases db op) as Hcs. destruct op as [rp env|p now].
  - destruct Hcs as [Hs' _]. rewrite Hs' in Hs. injection Hs as <-.
    rewrite request_otp_body_unfold. simpl. exists u'. split; [|done].
    destruct (find_user (normalize_email (rq_email rp)) (authuser db));
      [done|]. by apply find_user_app_Some.
  - destruct Hcs as [[Hs' _]|(j & dj & _ & _ & Hs' & _)];
      rewrite Hs' in Hs; injection Hs as <-; [by exists u'|].
    simpl. destruct (decide (e = normalize_email (vp_email p))) as [->|Hne].
    + exists (set_verified now u'). split; [by apply find_user_upsert_same|].
      simpl. by split_and!.
    + exists u'. split; [|done]. by rewrite find_user_upsert_other.
Qed.

Lemma verified_user_stays_verified_witness :
  let db := mkDb [] [mkUser "a@b.com" None true (Some 5) (Some 1) 5] in
  let ops := [RequestOTP (mkRequestOtpPayload "A@b.com") (mkRequestEnv 123456 10 11 12 13);
              VerifyOTP (mkVerifyOtpPayload "a@b.com" "123456") 1000] in
  exists db' u',
    run (Some db) ops = Some db'
    /\ find_user "a@b.com" (authuser db') = Some u'
    /\ u_created_at u' = Some 1
    /\ u_display_name u' = None
    /\ (true = true -> u_is_verified u' = true).
Proof.
  apply (verified_user_stays_verified
           (mkDb [] [mkUser "a@b.com" None true (Some 5) (Some 1) 5])
           [RequestOTP (mkRequestOtpPayload "A@b.com") (mkRequestEnv 123456 10 11 12 13);
            VerifyOTP (mkVerifyOtpPayload "a@b.com" "123456") 1000]
           "a@b.com" (mkUser "a@b.com" None true (Some 5) (Some 1) 5)).
  reflexivity.
Defined.

(** X9: what the handlers store is in normal form.  In a run whose
    draws are in 0..999999, started from a database where this holds,
    every record of [otp] has an email that [normalize_email] leaves
    unchanged and a code of six decimal digits that [strip] leaves
    unchanged, and every document of [authuser] has an email that
    [normalize_email] leaves unchanged. *)
Theorem stored_emails_and_codes_normal (db : Database) (ops : list Op) :
  let otp_ok := fun d : OtpDoc =>
    normalize_email (o_email d) = o_email d
    /\ String.length (o_code d) = 6%nat
    /\ PyStr.all_digits (o_code d) = true
    /\ PyStr.strip (o_code d) = o_code d in
  let user_ok := fun u : UserDoc => normalize_email (u_email u) = u_email u in
  Forall (fun op => draw_in_range op = true) ops ->
  Forall otp_ok (otp db) -> Forall user_ok (authuser db) ->
  exists db',
    run (Some db) ops = Some db'
    /\ Forall otp_ok (otp db') /\ Forall user_ok (authuser db').
Proof.
  intros otp_ok user_ok Hops Ho Hu.
  apply (run_invariant
           (fun db => Forall otp_ok (otp db) /\ Forall user_ok (authuser db))
           (fun op => draw_in_range op = true)); [|done|done].
  clear. intros db op db1 Hop [Ho Hu] Hs.
  pose proof (step_cases db op) as Hcs. destruct op as [rp env|p now].
  - destruct Hcs as [Hs' _]. rewrite Hs' in Hs. injection Hs as <-.
    rewrite request_otp_body_unfold. simpl. simpl in Hop. apply N.leb_le in Hop.
    split.
    + apply Forall_app. split; [done|]. constructor; [|constructor].
      unfold otp_ok. simpl. split_and!.
      * apply normalize_email_idem.
      * by apply length_format_06d.
      * apply all_digits_format_0d.
      * apply strip_format_06d.
    + destruct (find_user _ (authuser db)); [done|].
      apply Forall_app. split; [done|]. constructor; [|constructor].
      unfold user_ok. simpl. apply normalize_email_idem.
  - destruct Hcs as [[Hs' _]|(j & dj & Hj & Hq & Hs' & _)];
      rewrite Hs' in Hs; injection Hs as <-; [done|].
    simpl. split.
    + apply Forall_insert; [done|].
      rewrite Forall_lookup in Ho. apply (Ho j dj Hj).
    + clear -Hu. induction Hu as [|u0 l Hu0 Hl IH]; simpl.
      * constructor; [|constructor]. unfold user_ok. simpl.
        apply normalize_email_idem.
      * destruct (String.eqb (u_email u0) _); constructor; done.
Qed.

Lemma stored_emails_and_codes_normal_witness :
  let ops := [RequestOTP (mkRequestOtpPayload " A@B.com ") (mkRequestEnv 42 0 1 2 3);
              VerifyOTP (mkVerifyOtpPayload "a@b.com" "000042") 1000] in
  exists db',
    run (Some empty_db) ops = Some db'
    /\ Forall (fun d : OtpDoc =>
                 normalize_email (o_email d) = o_email d
                 /\ String.length (o_code d) = 6%nat
                 /\ PyStr.all_digits (o_code d) = true
                 /\ PyStr.strip (o_code d) = o_code d) (otp db')
    /\ Forall (fun u : UserDoc => normalize_email (u_email u) = u_email u)
         (authuser db').
Proof.
  apply (stored_emails_and_codes_normal empty_db
           [RequestOTP (mkRequestOtpPayload " A@B.com ") (mkRequestEnv 42 0 1 2 3);
            VerifyOTP (mkVerifyOtpPayload "a@b.com" "000042") 1000]).
  - constructor; [reflexivity|]. constructor; [reflexivity|]. constructor.
  - simpl. constructor.
  - simpl. constructor.
Defined.

(** X10: the normal form of an email.  [normalize_email] is idempotent;
    its result has no upper-case letter left ([lower] leaves it
    unchanged) and no whitespace at either end ([lstrip] and [rstrip]
    leave it unchanged); and stripping before lowering, instead of
    lowering before stripping as the handlers do, gives the same
    string. *)
Theorem normalize_email_normal_form (e : string) :
  normalize_email (normalize_email e) = normalize_email e
  /\ PyStr.lower (normalize_email e) = normalize_email e
  /\ PyStr.lstrip (normalize_email e) = normalize_email e
  /\ PyStr.rstrip (normalize_email e) = normalize_email e
  /\ PyStr.lower (PyStr.strip e) = normalize_email e.
Proof.
  split; [apply normalize_email_idem|]. unfold normalize_email. split_and!.
  - by rewrite lower_strip, lower_idem.
  - apply lstrip_no_lead. unfold PyStr.strip. apply no_lead_rstrip, no_lead_lstrip.
  - unfold PyStr.strip. apply rstrip_idem.
  - apply lower_strip.
Qed.

(** X11: the code that [request_otp] returns for a draw in 0..999999
    passes the length constraint of the field [code] of the model [Otp]
    of schemas.py (4 to 10 characters), and so does the code of the
    record it stores. *)
Theorem issued_code_fits_schema
  (db : Database) (rp : RequestOtpPayload) (env : RequestEnv) :
  (randint env <= 999999)%N ->
  exists r db1,
    request_otp (Some db) rp env = (inr r, Some db1)
    /\ Otp_code_valid (dev_otp r) = true
    /\ exists d, otp db1 !! length (otp db) = Some d
         /\ o_code d = dev_otp r /\ Otp_code_valid (o_code d) = true.
Proof.
  intros Hr. rewrite request_otp_Some, request_otp_body_unfold. simpl.
  eexists _, _. split; [reflexivity|]. simpl.
  assert (Hv : Otp_code_valid (PyStr.format_06d (randint env)) = true).
  { unfold Otp_code_valid. by rewrite length_format_06d. }
  split; [done|].
  exists (mkOtp (normalize_email (rq_email rp)) (PyStr.format_06d (randint env))
            (clk_now env + timedelta_minutes 5) false (clk_created env) None).
  split; [|done].
  rewrite lookup_app_r by lia. by rewrite Nat.sub_diag.
Qed.

Lemma issued_code_fits_schema_witness :
  exists r db1,
    request_otp (Some empty_db) (mkRequestOtpPayload "a@b.com")
      (mkRequestEnv 7 0 1 2 3) = (inr r, Some db1)
    /\ Otp_code_valid (dev_otp r) = true
    /\ exists d, otp db1 !! length (otp empty_db) = Some d
         /\ o_code d = dev_otp r /\ Otp_code_valid (o_code d) = true.
Proof.
  apply (issued_code_fits_schema empty_db (mkRequestOtpPayload "a@b.com")
           (mkRequestEnv 7 0 1 2 3)).
  vm_compute. discriminate.
Defined.

(** X12: a code lasts through the calls that do not use it.  After any
    run in which no VerifyOTP call carries both the email and the code of
    an unused record, the record is still there unchanged, and a call with
    its email and code, made not later than its [expires_at], succeeds:
    requests, and verifications for other emails or with other codes,
    invalidate nothing. *)
Theorem issued_code_survives_other_calls
  (db : Database) (ops : list Op) (i : nat) (d : OtpDoc)
  (p : VerifyOtpPayload) (now : datetime) :
  otp db !! i = Some d ->
  o_used d = false ->
  Forall (fun op => match op with
                    | RequestOTP _ _ => True
                    | VerifyOTP p' _ =>
                        normalize_email (vp_email p') <> o_email d
                        \/ PyStr.strip (vp_code p') <> o_code d
                    end) ops ->
  normalize_email (vp_email p) = o_email d ->
  PyStr.strip (vp_code p) = o_code d ->
  now <= o_expires_at d ->
  exists db' r db1,
    run (Some db) ops = Some db'
    /\ otp db' !! i = Some d
    /\ verify_otp (Some db') p now = (inr r, Some db1)
    /\ success r = true.
Proof.
  intros Hi Hu Hops He Hc Ht.
  destruct (run_invariant (fun db => otp db !! i = Some d)
              (fun op => match op with
                         | RequestOTP _ _ => True
                         | VerifyOTP p' _ =>
                             normalize_email (vp_email p') <> o_email d
                             \/ PyStr.strip (vp_code p') <> o_code d
                         end)) with (ops := ops) (db := db)
    as (db' & Hrun & Hi'); [|done|done|].
  - clear -Hu. intros db op db1 Hop HI Hs.
    pose proof (step_cases db op) as Hcs. destruct op as [rp env|p' now'].
    + destruct Hcs as [Hs' _]. rewrite Hs' in Hs. injection Hs as <-.
      rewrite request_otp_body_unfold. simpl. by apply lookup_app_l_Some.
    + destruct Hcs as [[Hs' _]|(j & dj & Hj & Hq & Hs' & _)];
        rewrite Hs' in Hs; injection Hs as <-; [done|].
      simpl. rewrite list_lookup_insert_ne; [done|].
      intros ->. assert (dj = d) as -> by congruence.
      apply otp_filter_true in Hq as (He & Hc & _).
      destruct Hop; congruence.
  - assert (Hq : otp_filter (normalize_email (vp_email p))
                   (PyStr.strip (vp_code p)) now d = true)
      by by apply otp_filter_intro.
    destruct (verify_otp_succeeds db' p now i d Hi' Hq) as (j & dj & _ & _ & _ & Hv).
    eexists db', _, _. by split_and!.
Qed.

Lemma issued_code_survives_other_calls_witness :
  let d := mkOtp "a@b.com" "123456" 300000000 false 0 None in
  let db := mkDb [d] [] in
  let ops := [RequestOTP (mkRequestOtpPayload "a@b.com") (mkRequestEnv 7 10 11 12 13);
              VerifyOTP (mkVerifyOtpPayload "a@b.com" "000007") 20;
              VerifyOTP (mkVerifyOtpPayload "c@d.com" "123456") 30] in
  exists db' r db1,
    run (Some db) ops = Some db'
    /\ otp db' !! 0%nat = Some d
    /\ verify_otp (Some db') (mkVerifyOtpPayload "A@B.com" " 123456") 40
       = (inr r, Some db1)
    /\ success r = true.
Proof.
  apply (issued_code_survives_other_calls
           (mkDb [mkOtp "a@b.com" "123456" 300000000 false 0 None] [])
           [RequestOTP (mkRequestOtpPayload "a@b.com") (mkRequestEnv 7 10 11 12 13);
            VerifyOTP (mkVerifyOtpPayload "a@b.com" "000007") 20;
            VerifyOTP (mkVerifyOtpPayload "c@d.com" "123456") 30]
           0 (mkOtp "a@b.com" "123456" 300000000 false 0 None)
           (mkVerifyOtpPayload "A@B.com" " 123456") 40).
  - reflexivity.
  - reflexivity.
  - constructor; [exact I|]. constructor; [right; vm_compute; discriminate|].
    constructor; [left; vm_compute; discriminate|]. constructor.
  - reflexivity.
  - reflexivity.
  - vm_compute. discriminate.
Defined.

(** X13: without a new request, a call that fails cannot succeed later.
    When no record matches a call at time [now], then after any run of
    VerifyOTP calls the same email and code at a time not before [now]
    match no record either: verifications add no record, clear no
    [used] and move no expiry. *)
Theorem failed_call_stays_failed
  (db : Database) (ops : list Op) (p : VerifyOtpPayload) (now now' : datetime) :
  verify_otp (Some db) p now = (inl InvalidOrExpired, Some db) ->
  Forall (fun op => is_request op = false) ops ->
  now <= now' ->
  exists db',
    run (Some db) ops = Some db'
    /\ length (otp db') = length (otp db)
    /\ verify_otp (Some db') p now' = (inl InvalidOrExpired, Some db').
Proof.
  intros Hfail Hops Hle.
  destruct (run_records ops db) as (db' & Hrun & Hkeep).
  destruct (run_invariant (fun db0 => length (otp db0) = length (otp db))
              (fun op => is_request op = false)) with (ops := ops) (db := db)
    as (db'' & Hrun' & Hlen); [|done|done|].
  { clear. intros db0 op db1 Hop HI Hs.
    pose proof (step_cases db0 op) as Hcs. destruct op as [rp env|p' n']; [done|].
    destruct Hcs as [[Hs' _]|(j & dj & _ & _ & Hs' & _)];
      rewrite Hs' in Hs; injection Hs as <-; [done|].
    simpl. by rewrite length_insert. }
  rewrite Hrun in Hrun'. injection Hrun' as <-.
  exists db'. split; [done|]. split; [done|].
  apply verify_otp_fails. intros k d' Hk.
  destruct (verify_otp_cases db p now) as [[Hnone _]|(j & dj & _ & _ & Hs)];
    [|rewrite Hfail in Hs; discriminate].
  assert (Hlt : (k < length (otp db))%nat).
  { rewrite <- Hlen. by eapply lookup_lt_Some. }
  destruct (lookup_lt_is_Some_2 _ _ Hlt) as [d Hd].
  destruct (Hkeep k d Hd) as (d2 & Hk2 & He & Hc & Hx & _ & Hu).
  assert (d2 = d') as -> by congruence.
  specialize (Hnone k d Hd).
  destruct (otp_filter _ _ now' d') eqn:Hq; [|done].
  apply otp_filter_true in Hq as (He' & Hc' & Hu' & Ht').
  destruct (o_used d) eqn:Hud.
  - rewrite (Hu eq_refl) in Hu'. congruence.
  - assert (otp_filter (normalize_email (vp_email p)) (PyStr.strip (vp_code p))
              now d = true); [|congruence].
    apply otp_filter_true. split_and!; [congruence|congruence|done|].
    pose proof (floor_ms_mono now now' Hle). lia.
Qed.

Lemma failed_call_stays_failed_witness :
  let db := mkDb [mkOtp "a@b.com" "123456" 300000000 false 0 None;
                  mkOtp "a@b.com" "222222" 500 false 0 None] [] in
  let ops := [VerifyOTP (mkVerifyOtpPayload "a@b.com" "123456") 2000] in
  exists db',
    run (Some db) ops = Some db'
    /\ length (otp db') = length (otp db)
    /\ verify_otp (Some db') (mkVerifyOtpPayload "a@b.com" "222222") 3000
       = (inl InvalidOrExpired, Some db').
Proof.
  apply (failed_call_stays_failed
           (mkDb [mkOtp "a@b.com" "123456" 300000000 false 0 None;
                  mkOtp "a@b.com" "222222" 500 false 0 None] [])
           [VerifyOTP (mkVerifyOtpPayload "a@b.com" "123456") 2000]
           (mkVerifyOtpPayload "a@b.com" "222222") 1000 3000).
  - vm_compute. reflexivity.
  - constructor; [reflexivity|constructor].
  - vm_compute. discriminate.
Defined.

(** * The diagnostic endpoint *)

Section DiagFacts.
Import Diag.
Implicit Types (db : option DbHandle) (getenv : string -> option text).

Local Ltac by_handle db :=
  destruct db as [[[|v|msg] [msg'|names]]|];
  unfold test_database; cbn -[firstn lit check_mark cross_mark warning_sign] in *.

(** X14: the report lists at most ten collections: [collections] is the
    first ten names of the listing when the handle is there, its [name]
    can be read and the listing succeeds, and is empty otherwise; it
    never holds a name the listing does not. *)
Theorem report_collections_bounded db getenv :
  let r := test_database db getenv in
  (length (collections r) <= 10)%nat
  /\ (forall c, c ∈ collections r ->
        exists h names, db = Some h
          /\ h_list_collection_names h = inr names /\ c ∈ names)
  /\ match db with
     | Some h =>
         match h_name h, h_list_collection_names h with
         | AttrRaises _, _ => collections r = []
         | _, inl _ => collections r = []
         | _, inr names => collections r = take 10 names
         end
     | None => collections r = []
     end.
Proof.
  intros r. subst r. split_and!.
  - by_handle db; rewrite ?length_take; lia.
  - intros c Hc. by_handle db; try (by apply elem_of_nil in Hc);
      eexists _, _; (split; [reflexivity|]); (split; [reflexivity|]);
      by apply (subseteq_take 10 names).
  - by_handle db; done.
Qed.

(** X15: the fields of the report about the configuration show the
    environment only.  Whatever the handle is, [database_url] and
    [database_name] say whether the variables DATABASE_URL and
    DATABASE_NAME hold a non-empty string: the values written while the
    handle is probed (a mark that the URL is configured, the [name] of the
    handle) never reach the caller, and neither field is [None]. *)
Theorem report_configuration_from_environment db getenv :
  let r := test_database db getenv in
  let flag := fun v : option text =>
    if truthy v then check_mark ++ lit " Set" else cross_mark ++ lit " Not Set" in
  database_url r = Some (flag (getenv "DATABASE_URL"))
  /\ database_name r = Some (flag (getenv "DATABASE_NAME"))
  /\ database_url r <> Some (check_mark ++ lit " Configured")
  /\ (forall db', database_url (test_database db' getenv) = database_url r
        /\ database_name (test_database db' getenv) = database_name r).
Proof.
  intros r flag. subst r flag.
  assert (Hall : forall db0,
    database_url (test_database db0 getenv)
      = Some (if truthy (getenv "DATABASE_URL") then check_mark ++ lit " Set"
              else cross_mark ++ lit " Not Set")
    /\ database_name (test_database db0 getenv)
      = Some (if truthy (getenv "DATABASE_NAME") then check_mark ++ lit " Set"
              else cross_mark ++ lit " Not Set")).
  { intros db0. by by_handle db0. }
  destruct (Hall db) as [Hu Hn]. rewrite Hu, Hn.
  split; [done|]. split; [done|]. split.
  - destruct (truthy (getenv "DATABASE_URL")); discriminate.
  - intros db'. by destruct (Hall db') as [-> ->].
Qed.

(** X16: what the report says of the connection.  [backend] always says
    running.  [connection_status] is ["Connected"] exactly when there is
    a handle whose [name] can be read without an exception other than
    [AttributeError].  [database] says connected and working exactly when,
    moreover, the listing of the collections succeeds; and it is never
    left at its initial value. *)
Theorem report_connection_status db getenv :
  let r := test_database db getenv in
  let readable := fun h => forall msg, h_name h <> AttrRaises msg in
  backend r = check_mark ++ lit " Running"
  /\ (connection_status r = lit "Connected"
      <-> exists h, db = Some h /\ readable h)
  /\ (database r = check_mark ++ lit " Connected & Working"
      <-> exists h names, db = Some h /\ readable h
            /\ h_list_collection_names h = inr names)
  /\ database r <> cross_mark ++ lit " Not Available".
Proof.
  intros r readable. subst r readable. split_and!.
  - by by_handle db.
  - split.
    + intros H. by_handle db; try discriminate;
        (eexists; split; [reflexivity|]; intros m; cbn; discriminate).
    + intros (h & -> & Hr). destruct h as [[|v|msg] l]; cbn in Hr;
        [| |by exfalso; eapply Hr]; by destruct l.
  - split.
    + intros H. by_handle db; try discriminate;
        (eexists _, _; split; [reflexivity|]; split; [|reflexivity];
         intros m; cbn; discriminate).
    + intros (h & names & -> & Hr & Hl). destruct h as [[|v|msg] l];
        cbn in Hr, Hl; subst l; [| |by exfalso; eapply Hr]; done.
  - by_handle db; discriminate.
Qed.

(** X17: the report carries at most fifty characters of the message of
    an exception: [database] is one of the fixed texts, or a fixed prefix
    followed by the first fifty characters of the message, and is never
    longer than 75 characters. *)
Theorem report_error_text_bounded db getenv :
  let r := test_database db getenv in
  (length (database r) <= 75)%nat
  /\ match db with
     | Some h =>
         match h_name h, h_list_collection_names h with
         | AttrRaises msg, _ =>
             database r = cross_mark ++ lit " Error: " ++ take 50 msg
         | _, inl msg =>
             database r = warning_sign ++ lit "  Connected but Error: " ++ take 50 msg
         | _, inr _ => database r = check_mark ++ lit " Connected & Working"
         end
     | None => database r = warning_sign ++ lit "  Available but not initialized"
     end.
Proof.
  intros r. subst r. split.
  - by_handle db; rewrite ?length_app, ?length_take;
      repeat match goal with
      | |- context [Nat.min 50 ?x] =>
          let H := fresh in
          pose proof (Nat.le_min_l 50 x) as H;
          generalize dependent (Nat.min 50 x); intros
      end; cbn; lia.
  - by_handle db; done.
Qed.

End DiagFacts.

Example report_of_working_handle :
  Diag.test_database
    (Some (Diag.mkHandle (Diag.AttrValue (Diag.lit "appdb"))
             (inr [Diag.lit "otp"; Diag.lit "authuser"])))
    (fun k => if String.eqb k "DATABASE_URL" then Some (Diag.lit "mongodb://h") else None)
  = Diag.mkResponse
      (Diag.check_mark ++ Diag.lit " Running")
      (Diag.check_mark ++ Diag.lit " Connected & Working")
      (Some (Diag.check_mark ++ Diag.lit " Set"))
      (Some (Diag.cross_mark ++ Diag.lit " Not Set"))
      (Diag.lit "Connected")
      [Diag.lit "otp"; Diag.lit "authuser"].
Proof. reflexivity. Qed.
